(** * Web-Search-AI-Agent: the research agent and the search-result parser

    A shallow embedding of [services/backend/agent.py] (the decision and
    orchestration pipeline of [ResearchAgent]) and of
    [ScraperClient._parse_search_results] in [services/backend/scraper.py].

    - Python values that reach the code through [json.loads] are the
      inductive [pyval]; dictionaries are association lists in insertion
      order.
    - Text is [string]; a character stands for the code point of the same
      number (0..255).
    - [json.loads] is a parameter [loads] of the code that calls it, [None]
      standing for [json.JSONDecodeError]; exhaustion of resources
      ([RecursionError], [MemoryError]) and the [ValueError] of an integer
      literal beyond the interpreter's digit limit are not modelled.
    - The two backing services are ports: a completion port
      ([LLMClient.prompt], text or [LLMError]) and a search port
      ([ScraperClient.search_as_dict], a list of results or [ScraperError]),
      as their docstrings have it.  A port answers as a function of the
      calls made so far, and every call is appended to that history.  What
      the clients of llm.py and scraper.py do beyond that contract (other
      exceptions, a reply that is no text) is in their own models, [Llm]
      and [ScraperClient], further down.
    - [async]/[await] is sequential here (one outstanding call at a time),
      and [logger] calls are left out. *)

From Stdlib Require Import String Ascii List ZArith QArith Bool Lia DecimalString.
Import ListNotations.
Set Warnings "-register-all".
Local Open Scope Z_scope.
Local Open Scope list_scope.
Local Open Scope string_scope.

(** ** Python values *)

Module Py.

Inductive pyval : Type :=
| PNone
| PBool (b : bool)
| PInt (n : Z)
| PFloat (repr : string) (nonzero : bool)
    (* a float as far as this program observes one: its [repr] and whether
       it differs from zero *)
| PStr (s : string)
| PList (xs : list pyval)
| PDict (kvs : list (string * pyval)).

(** [bool(v)] *)
Definition truthy (v : pyval) : bool :=
  match v with
  | PNone => false
  | PBool b => b
  | PInt n => negb (n =? 0)%Z
  | PFloat _ nz => nz
  | PStr s => negb (s =? "")
  | PList xs => match xs with [] => false | _ => true end
  | PDict kvs => match kvs with [] => false | _ => true end
  end.

(** [a or b] *)
Definition py_or (a b : pyval) : pyval := if truthy a then a else b.

Fixpoint dict_lookup (k : string) (d : list (string * pyval)) : option pyval :=
  match d with
  | [] => None
  | (k', v) :: d' => if k' =? k then Some v else dict_lookup k d'
  end.

(** [d[k] = v] on a dictionary: replaces in place, or appends. *)
Fixpoint dict_set (k : string) (v : pyval) (d : list (string * pyval))
  : list (string * pyval) :=
  match d with
  | [] => [(k, v)]
  | (k', v') :: d' => if k' =? k then (k', v) :: d' else (k', v') :: dict_set k v d'
  end.

(** ** Exceptions and results *)

Inductive exn : Type :=
| LLMError (message : string) (status_code : option Z)
| ScraperError (message : string) (status_code : option Z)
| JSONDecodeError
| IndexError
| AttributeError
| TypeError.

Inductive outcome (A : Type) : Type :=
| Ok (a : A)
| Raise (e : exn).
Arguments Ok {A} a.
Arguments Raise {A} e.

(** [v.get(k, default)]: only a dictionary has the method. *)
Definition py_get (v : pyval) (k : string) (default : pyval) : outcome pyval :=
  match v with
  | PDict d => Ok (match dict_lookup k d with Some x => x | None => default end)
  | _ => Raise AttributeError
  end.

(** ** String methods *)

Definition nl : string := String (ascii_of_nat 10) EmptyString.
Definition dq : string := String (ascii_of_nat 34) EmptyString.

(** [str.isspace] on the code points below 256. *)
Definition is_space (c : ascii) : bool :=
  let n := nat_of_ascii c in
  ((9 <=? n) && (n <=? 13) || (28 <=? n) && (n <=? 32) || (n =? 133) || (n =? 160))%nat.

Fixpoint lstrip (s : string) : string :=
  match s with
  | EmptyString => EmptyString
  | String c s' => if is_space c then lstrip s' else s
  end.

Fixpoint rstrip (s : string) : string :=
  match s with
  | EmptyString => EmptyString
  | String c s' =>
      match rstrip s' with
      | EmptyString => if is_space c then EmptyString else String c EmptyString
      | r => String c r
      end
  end.

(** [s.strip()] *)
Definition strip (s : string) : string := rstrip (lstrip s).

(** [s.startswith(p)] *)
Definition startswith (s p : string) : bool := prefix p s.

Fixpoint drop (n : nat) (s : string) : string :=
  match n, s with
  | O, _ => s
  | S n', String _ s' => drop n' s'
  | S _, EmptyString => EmptyString
  end.

(** The cut at the first occurrence of a non-empty [sep]. *)
Fixpoint cut_first (sep s : string) : option (string * string) :=
  if prefix sep s then Some (EmptyString, drop (String.length sep) s)
  else match s with
       | EmptyString => None
       | String c s' =>
           match cut_first sep s' with
           | Some (a, b) => Some (String c a, b)
           | None => None
           end
       end.

(** The cut at the last occurrence of a non-empty [sep]. *)
Fixpoint cut_last (sep s : string) : option (string * string) :=
  match s with
  | EmptyString => None
  | String c s' =>
      match cut_last sep s' with
      | Some (a, b) => Some (String c a, b)
      | None => if prefix sep s then Some (EmptyString, drop (String.length sep) s)
                else None
      end
  end.

(** [s.split(sep, 1)] and [s.rsplit(sep, 1)] *)
Definition split1 (s sep : string) : list string :=
  match cut_first sep s with Some (a, b) => [a; b] | None => [s] end.

Definition rsplit1 (s sep : string) : list string :=
  match cut_last sep s with Some (a, b) => [a; b] | None => [s] end.

(** [l[i]] for [0 <= i] *)
Definition item {A : Type} (l : list A) (i : nat) : outcome A :=
  match nth_error l i with Some x => Ok x | None => Raise IndexError end.

(** [sep.join(l)] *)
Fixpoint join (sep : string) (l : list string) : string :=
  match l with
  | [] => EmptyString
  | [x] => x
  | x :: l' => x ++ sep ++ join sep l'
  end.

(** [str(n)] for an [int] *)
Definition str_of_int (n : Z) : string := NilZero.string_of_int (Z.to_int n).

(** [repr(s)] for a [str] *)
Fixpoint contains_char (c : ascii) (s : string) : bool :=
  match s with
  | EmptyString => false
  | String a s' => Ascii.eqb a c || contains_char c s'
  end.

Definition hex_digit (n : nat) : ascii :=
  ascii_of_nat (if (n <? 10)%nat then 48 + n else 87 + n).

Definition repr_char (quote c : ascii) : string :=
  let n := nat_of_ascii c in
  let bs := String (ascii_of_nat 92) EmptyString in
  if Ascii.eqb c quote || (n =? 92)%nat then bs ++ String c EmptyString
  else if (n =? 9)%nat then bs ++ "t"
  else if (n =? 10)%nat then bs ++ "n"
  else if (n =? 13)%nat then bs ++ "r"
  else if (n <? 32)%nat || (n =? 127)%nat || (128 <=? n)%nat && (n <=? 160)%nat
          || (n =? 173)%nat
       then bs ++ "x" ++ String (hex_digit (n / 16)) (String (hex_digit (n mod 16)) EmptyString)
  else String c EmptyString.

Fixpoint repr_chars (quote : ascii) (s : string) : string :=
  match s with
  | EmptyString => EmptyString
  | String c s' => repr_char quote c ++ repr_chars quote s'
  end.

Definition str_repr (s : string) : string :=
  let sq := ascii_of_nat 39 in
  let dq' := ascii_of_nat 34 in
  let quote := if contains_char sq s && negb (contains_char dq' s) then dq' else sq in
  String quote (repr_chars quote s) ++ String quote EmptyString.

(** [repr(v)] and [str(v)], the latter being what an f-string field gives. *)
Fixpoint py_repr (v : pyval) : string :=
  match v with
  | PNone => "None"
  | PBool true => "True"
  | PBool false => "False"
  | PInt n => str_of_int n
  | PFloat r _ => r
  | PStr s => str_repr s
  | PList xs => "[" ++ join ", " (map py_repr xs) ++ "]"
  | PDict kvs =>
      "{" ++ join ", " (map (fun kv => str_repr (fst kv) ++ ": " ++ py_repr (snd kv)) kvs)
          ++ "}"
  end.

Definition py_str (v : pyval) : string :=
  match v with
  | PStr s => s
  | _ => py_repr v
  end.

End Py.
Import Py.

(** ** Computations with state and exceptions *)

Module Run.

Definition M (S A : Type) : Type := S -> outcome A * S.

Definition ret {S A : Type} (a : A) : M S A := fun s => (Ok a, s).

Definition bind {S A B : Type} (m : M S A) (k : A -> M S B) : M S B :=
  fun s =>
    match m s with
    | (Ok a, s') => k a s'
    | (Raise e, s') => (Raise e, s')
    end.

(** A pure step that may raise. *)
Definition lift {S A : Type} (o : outcome A) : M S A := fun s => (o, s).

(** [try: m  except <the exceptions on which h is defined>: h e] *)
Definition try_except {S A : Type} (m : M S A) (h : exn -> option (M S A)) : M S A :=
  fun s =>
    match m s with
    | (Ok a, s') => (Ok a, s')
    | (Raise e, s') =>
        match h e with
        | Some k => k s'
        | None => (Raise e, s')
        end
    end.

End Run.
Import Run.

Declare Scope run_scope.
Delimit Scope run_scope with run.
Notation "x <- m ;; k" := (bind m (fun x => k))
  (at level 61, m at next level, right associativity) : run_scope.
Notation "m ;; k" := (bind m (fun _ => k))
  (at level 61, right associativity) : run_scope.
Local Open Scope run_scope.

(** ** Records of the data model *)

(** [SearchResult], and the dictionary [to_dict] makes of one: its three
    keys are the record's fields. *)
Module SearchResult.
Record t : Type := make { title : pyval; url : pyval; description : pyval }.

Definition to_dict (r : t) : pyval :=
  PDict [("title", title r); ("url", url r); ("description", description r)].
End SearchResult.

(** The dictionary [result] that [answer] builds and returns. *)
Module AnswerResult.
Record t : Type := make {
  question : string;
  answer : string;
  used_search : bool;
  search_results : list SearchResult.t;
  reason : pyval
}.

Definition set_answer (v : string) (r : t) : t :=
  make (question r) v (used_search r) (search_results r) (reason r).
Definition set_used_search (v : bool) (r : t) : t :=
  make (question r) (answer r) v (search_results r) (reason r).
Definition set_search_results (v : list SearchResult.t) (r : t) : t :=
  make (question r) (answer r) (used_search r) v (reason r).
Definition set_reason (v : pyval) (r : t) : t :=
  make (question r) (answer r) (used_search r) (search_results r) v.
End AnswerResult.

(** ** The ports *)

Inductive event : Type :=
| Prompt (prompt : string) (temperature : Q)
| Search (keywords : pyval) (num_results : Z).

Definition history : Type := list event.

(** What a port call gives: a value, or the port's classified error with its
    [message] and [status_code]. *)
Inductive reply (A : Type) : Type :=
| Returned (a : A)
| Failed (message : string) (status_code : option Z).
Arguments Returned {A} a.
Arguments Failed {A} message status_code.

Record Ports : Type := {
  llm_prompt : history -> string -> Q -> reply string;
  scraper_search_as_dict : history -> pyval -> Z -> reply (list SearchResult.t)
}.

(** ** Prompt templates, each already applied as [TEMPLATE.format(...)] *)

Definition DECISION_PROMPT (question : string) : string :=
  join nl
    [ "You are a helpful assistant that decides whether a question requires current information from the web.";
      EmptyString;
      "Analyze the following question and determine if it needs web search to provide an accurate, up-to-date answer.";
      EmptyString;
      "Questions that typically NEED web search:";
      "- Current events, news, or recent developments";
      "- Real-time data (prices, weather, stock prices)";
      "- Information that changes frequently";
      "- Questions about specific recent dates or events";
      "- Questions about current versions of software, products, etc.";
      EmptyString;
      "Questions that typically DON'T need web search:";
      "- General knowledge, concepts, or explanations";
      "- Historical facts";
      "- How-to guides for established processes";
      "- Mathematical or logical problems";
      "- Definitions or explanations of well-known topics";
      EmptyString;
      "Question: " ++ question;
      EmptyString;
      "Respond with ONLY a JSON object (no markdown, no explanation):";
      "{" ++ dq ++ "needs_search" ++ dq ++ ": true/false, " ++ dq ++ "reason" ++ dq ++ ": " ++ dq ++ "brief explanation" ++ dq ++ "}" ].

Definition KEYWORD_PROMPT (question : string) : string :=
  join nl
    [ "Extract the best search keywords from this question to find relevant information on Google.";
      EmptyString;
      "Question: " ++ question;
      EmptyString;
      "Respond with ONLY a JSON object (no markdown, no explanation):";
      "{" ++ dq ++ "keywords" ++ dq ++ ": " ++ dq ++ "optimized search query" ++ dq ++ "}" ].

Definition ANSWER_WITH_SEARCH_PROMPT (question search_results : string) : string :=
  join nl
    [ "You are a helpful research assistant. Answer the user's question using the search results provided.";
      EmptyString;
      "Question: " ++ question;
      EmptyString;
      "Search Results:";
      search_results;
      EmptyString;
      "Instructions:";
      "- Provide a comprehensive answer based on the search results";
      "- If the search results don't contain relevant information, say so";
      "- Cite sources when possible by mentioning the source title";
      "- Be concise but thorough" ].

Definition ANSWER_DIRECT_PROMPT (question : string) : string :=
  join nl
    [ "You are a helpful assistant. Answer the following question based on your knowledge.";
      EmptyString;
      "Question: " ++ question;
      EmptyString;
      "Provide a clear, accurate, and helpful response." ].

(** Pure code that may raise: sequencing on [outcome]. *)
Definition and_then {A B : Type} (o : outcome A) (k : A -> outcome B) : outcome B :=
  match o with
  | Ok a => k a
  | Raise e => Raise e
  end.

Declare Scope outcome_scope.
Delimit Scope outcome_scope with out.
Notation "x <- o ;; k" := (and_then o (fun x => k))
  (at level 61, o at next level, right associativity) : outcome_scope.

(** ** scraper.py: [ScraperClient._parse_search_results]

    [loads] is [json.loads]: [None] stands for [json.JSONDecodeError]. *)

Module Scraper.
Section Parse.

Variable loads : string -> option pyval.

(** One turn of the loop of lines 66-72, on the list [results] built so far. *)
Definition parse_item (item : pyval) (results : list SearchResult.t)
  : outcome (list SearchResult.t) :=
  (title <- py_get item "title" (PStr "") ;;
   link <- py_get item "link" PNone ;;
   url <- (if truthy link then Ok link else py_get item "url" (PStr "")) ;;
   d <- py_get item "description" PNone ;;
   description <- (if truthy d then Ok d else py_get item "snippet" (PStr "")) ;;
   Ok (if truthy title && truthy url
       then (results ++ [SearchResult.make title url description])%list
       else results))%out.

Fixpoint parse_items (items : list pyval) (results : list SearchResult.t)
  : outcome (list SearchResult.t) :=
  match items with
  | [] => Ok results
  | item :: rest => (results <- parse_item item results ;; parse_items rest results)%out
  end.

(** [for item in organic]: a list gives its elements, a dictionary its keys,
    a string its characters; nothing else is iterable. *)
Definition iterate (organic : pyval) : outcome (list pyval) :=
  match organic with
  | PList xs => Ok xs
  | PDict kvs => Ok (map (fun kv => PStr (fst kv)) kvs)
  | PStr s => Ok (map (fun c => PStr (String c EmptyString)) (list_ascii_of_string s))
  | PNone | PBool _ | PInt _ | PFloat _ _ => Raise TypeError
  end.

Definition _parse_search_results (data : pyval) : outcome (list SearchResult.t) :=
  (body <- py_get data "body" data ;;
   match (match body with PStr s => loads s | _ => Some body end) with
   | None => Ok []
   | Some body =>
       o <- py_get body "organic" PNone ;;
       organic <- (if truthy o then Ok o
                   else o' <- py_get body "organic_results" PNone ;;
                        Ok (py_or o' (PList []))) ;;
       items <- iterate organic ;;
       parse_items items []
   end)%out.

End Parse.
End Scraper.

(** ** agent.py: [ResearchAgent] *)

Module Agent.
Section ResearchAgent.

(** [json.loads], with [None] for [json.JSONDecodeError]; and [self.llm],
    [self.scraper]. *)
Variable loads : string -> option pyval.
Variable ports : Ports.

Definition llm (prompt : string) (temperature : Q) : M history string :=
  fun h =>
    (match llm_prompt ports h prompt temperature with
     | Returned text => Ok text
     | Failed message status_code => Raise (LLMError message status_code)
     end,
     (h ++ [Prompt prompt temperature])%list).

Definition scraper (keywords : pyval) (num_results : Z) : M history (list SearchResult.t) :=
  fun h =>
    (match scraper_search_as_dict ports h keywords num_results with
     | Returned results => Ok results
     | Failed message status_code => Raise (ScraperError message status_code)
     end,
     (h ++ [Search keywords num_results])%list).

Definition json_loads (s : string) : outcome pyval :=
  match loads s with
  | Some v => Ok v
  | None => Raise JSONDecodeError
  end.

(** Lines 85-87 and 110-112: strip, then drop a code fence.
    [response.split(nl, 1)[1].rsplit(fence, 1)[0]] *)
Definition unfence (response : string) : outcome string :=
  let response := strip response in
  if startswith response "```" then
    (rest <- item (split1 response nl) 1 ;;
     item (rsplit1 rest "```") 0)%out
  else Ok response.

Definition _needs_web_search (question : string) : M history (pyval * pyval) :=
  try_except
    (response <- llm (DECISION_PROMPT question) 0.1 ;;
     response <- lift (unfence response) ;;
     data <- lift (json_loads response) ;;
     needs_search <- lift (py_get data "needs_search" (PBool false)) ;;
     reason <- lift (py_get data "reason" (PStr "")) ;;
     ret (needs_search, reason))
    (fun e =>
       match e with
       | JSONDecodeError | LLMError _ _ =>
           Some (ret (PBool false, PStr "Failed to determine, using direct answer"))
       | _ => None
       end).

Definition _extract_keywords (question : string) : M history pyval :=
  try_except
    (response <- llm (KEYWORD_PROMPT question) 0.1 ;;
     response <- lift (unfence response) ;;
     data <- lift (json_loads response) ;;
     keywords <- lift (py_get data "keywords" (PStr question)) ;;
     ret keywords)
    (fun e =>
       match e with
       | JSONDecodeError | LLMError _ _ => Some (ret (PStr question))
       | _ => None
       end).

Definition _search_web (keywords : pyval) (num_results : Z)
  : M history (list SearchResult.t) :=
  try_except
    (results <- scraper keywords num_results ;;
     ret results)
    (fun e =>
       match e with
       | ScraperError _ _ => Some (ret [])
       | _ => None
       end).

(** Lines 144-146: what one result adds to [formatted_results]. *)
Definition format_result (i : Z) (result : SearchResult.t) (formatted_results : string)
  : string :=
  let formatted_results :=
    formatted_results ++ nl ++ str_of_int i ++ ". " ++ py_str (SearchResult.title result) ++ nl in
  let formatted_results :=
    formatted_results ++ "   URL: " ++ py_str (SearchResult.url result) ++ nl in
  formatted_results ++ "   " ++ py_str (SearchResult.description result) ++ nl.

(** [for i, result in enumerate(search_results, i): ...] *)
Fixpoint format_results (i : Z) (search_results : list SearchResult.t)
  (formatted_results : string) : string :=
  match search_results with
  | [] => formatted_results
  | result :: rest => format_results (i + 1) rest (format_result i result formatted_results)
  end.

Definition _answer_with_results (question : string) (search_results : list SearchResult.t)
  : M history string :=
  let formatted_results := format_results 1 search_results "" in
  response <- llm (ANSWER_WITH_SEARCH_PROMPT question formatted_results) 0.7 ;;
  ret response.

Definition _answer_direct (question : string) : M history string :=
  response <- llm (ANSWER_DIRECT_PROMPT question) 0.7 ;;
  ret response.

(** [answer] runs on its local dictionary [result] and the ports' history. *)
Definition frame : Type := AnswerResult.t * history.

(** [await m]: a call of one of the stages above. *)
Definition await {A : Type} (m : M history A) : M frame A :=
  fun s => let (o, h) := m (snd s) in (o, (fst s, h)).

(** [result[key] = v] *)
Definition assign (set : AnswerResult.t -> AnswerResult.t) : M frame unit :=
  fun s => (Ok tt, (set (fst s), snd s)).

(** The [try] block of lines 190-215. *)
Definition answer_try (question : string) (use_web_search : bool) : M frame unit :=
  if negb use_web_search then
    assign (AnswerResult.set_reason (PStr "Web search disabled")) ;;
    a <- await (_answer_direct question) ;;
    assign (AnswerResult.set_answer a)
  else
    decision <- await (_needs_web_search question) ;;
    let (needs_search, reason) := decision : pyval * pyval in
    assign (AnswerResult.set_reason reason) ;;
    if truthy needs_search then
      keywords <- await (_extract_keywords question) ;;
      search_results <- await (_search_web keywords 5) ;;
      assign (AnswerResult.set_search_results search_results) ;;
      assign (AnswerResult.set_used_search true) ;;
      match search_results with
      | _ :: _ =>
          a <- await (_answer_with_results question search_results) ;;
          assign (AnswerResult.set_answer a)
      | [] =>
          a <- await (_answer_direct question) ;;
          assign (AnswerResult.set_answer a)
      end
    else
      a <- await (_answer_direct question) ;;
      assign (AnswerResult.set_answer a).

(** [answer(question, use_web_search)]: the early [return result] of line
    196 and the one of line 222 give the same dictionary. *)
Definition answer (question : string) (use_web_search : bool) : M history AnswerResult.t :=
  fun h =>
    let result := AnswerResult.make question "" false [] (PStr "") in
    let (o, s) :=
      try_except
        (answer_try question use_web_search)
        (fun e =>
           match e with
           | LLMError message _ =>
               Some (assign (AnswerResult.set_answer
                               ("Sorry, I encountered an error: " ++ message)))
           | _ => None
           end)
        (result, h) in
    (match o with
     | Ok _ => Ok (fst s)
     | Raise e => Raise e
     end, snd s).

End ResearchAgent.
End Agent.

(** ** A JSON decoder to run the model with

    The theorems below hold for every decoder [loads].  To evaluate the
    model on concrete texts, [Json.loads] decodes JSON as [json.loads] does,
    on the texts whose numbers have no fraction and no exponent and whose
    [\u] escapes stay below 256 (it gives [None] on the others). *)

Module Json.

Definition is_ws (c : ascii) : bool :=
  let n := nat_of_ascii c in ((n =? 32) || (n =? 9) || (n =? 10) || (n =? 13))%nat.

Fixpoint skip_ws (s : string) : string :=
  match s with
  | EmptyString => EmptyString
  | String c s' => if is_ws c then skip_ws s' else s
  end.

Definition digit (c : ascii) : option Z :=
  let n := nat_of_ascii c in
  if ((48 <=? n) && (n <=? 57))%nat then Some (Z.of_nat n - 48) else None.

Definition hex (c : ascii) : option nat :=
  let n := nat_of_ascii c in
  if ((48 <=? n) && (n <=? 57))%nat then Some (n - 48)%nat
  else if ((65 <=? n) && (n <=? 70))%nat then Some (n - 55)%nat
  else if ((97 <=? n) && (n <=? 102))%nat then Some (n - 87)%nat
  else None.

Fixpoint digits (acc : Z) (s : string) : Z * string :=
  match s with
  | EmptyString => (acc, s)
  | String c s' =>
      match digit c with
      | Some d => digits (10 * acc + d) s'
      | None => (acc, s)
      end
  end.

(** An integer literal; a fraction or an exponent after it is declined. *)
Definition number (s : string) : option (pyval * string) :=
  let (negative, s1) :=
    match s with
    | String "-" r => (true, r)
    | _ => (false, s)
    end in
  let finish (n : Z) (r : string) :=
    match r with
    | String "." _ | String "e" _ | String "E" _ => None
    | _ => Some (PInt (if negative then - n else n), r)
    end in
  match s1 with
  | EmptyString => None
  | String "0" r => finish 0 r
  | String c r =>
      match digit c with
      | Some d => let (n, r') := digits d r in finish n r'
      | None => None
      end
  end.

Definition escape (c : ascii) : option ascii :=
  match c with
  | "b"%char => Some (ascii_of_nat 8)
  | "f"%char => Some (ascii_of_nat 12)
  | "n"%char => Some (ascii_of_nat 10)
  | "r"%char => Some (ascii_of_nat 13)
  | "t"%char => Some (ascii_of_nat 9)
  | "/"%char => Some c
  | _ => if ((nat_of_ascii c =? 34) || (nat_of_ascii c =? 92))%nat then Some c else None
  end.

(** The rest of a string literal, after its opening quote. *)
Fixpoint chars (s : string) : option (string * string) :=
  let cons (c : ascii) (o : option (string * string)) :=
    match o with
    | Some (t, rest) => Some (String c t, rest)
    | None => None
    end in
  match s with
  | EmptyString => None
  | String c r =>
      let n := nat_of_ascii c in
      if (n =? 34)%nat then Some (EmptyString, r)
      else if (n <? 32)%nat then None
      else if (n =? 92)%nat then
        match r with
        | String "u" (String h1 (String h2 (String h3 (String h4 r')))) =>
            match hex h1, hex h2, hex h3, hex h4 with
            | Some O, Some O, Some a, Some b => cons (ascii_of_nat (16 * a + b)) (chars r')
            | _, _, _, _ => None
            end
        | String e r' =>
            match escape e with
            | Some c' => cons c' (chars r')
            | None => None
            end
        | EmptyString => None
        end
      else cons c (chars r)
  end.

Section Containers.

(** The decoder of one value, for the elements and members below. *)
Variable value : string -> option (pyval * string).

(** The elements of an array, from the first one on; [n] bounds their count. *)
Fixpoint elements (n : nat) (acc : list pyval) (s : string) : option (pyval * string) :=
  match n with
  | O => None
  | S n' =>
      match value s with
      | None => None
      | Some (v, r) =>
          match skip_ws r with
          | String "," r' => elements n' (acc ++ [v])%list (skip_ws r')
          | String "]" r' => Some (PList (acc ++ [v])%list, r')
          | _ => None
          end
      end
  end.

(** The members of an object, from the first key on. *)
Fixpoint members (n : nat) (acc : list (string * pyval)) (s : string)
  : option (pyval * string) :=
  match n with
  | O => None
  | S n' =>
      match s with
      | String c r =>
          if (nat_of_ascii c =? 34)%nat then
            match chars r with
            | None => None
            | Some (k, r1) =>
                match skip_ws r1 with
                | String ":" r2 =>
                    match value (skip_ws r2) with
                    | None => None
                    | Some (v, r3) =>
                        match skip_ws r3 with
                        | String "," r4 => members n' (dict_set k v acc) (skip_ws r4)
                        | String "}" r4 => Some (PDict (dict_set k v acc), r4)
                        | _ => None
                        end
                    end
                | _ => None
                end
            end
          else None
      | EmptyString => None
      end
  end.

End Containers.

(** One value at the head of [s]; [fuel] bounds the nesting. *)
Fixpoint value (fuel : nat) (s : string) : option (pyval * string) :=
  match fuel with
  | O => None
  | S fuel' =>
      match s with
      | EmptyString => None
      | String c r =>
          let n := nat_of_ascii c in
          if (n =? 34)%nat then
            match chars r with
            | Some (t, rest) => Some (PStr t, rest)
            | None => None
            end
          else if (n =? 123)%nat then
            match skip_ws r with
            | String "}" r' => Some (PDict [], r')
            | r' => members (value fuel') (String.length s) [] r'
            end
          else if (n =? 91)%nat then
            match skip_ws r with
            | String "]" r' => Some (PList [], r')
            | r' => elements (value fuel') (String.length s) [] r'
            end
          else if prefix "null" s then Some (PNone, drop 4 s)
          else if prefix "true" s then Some (PBool true, drop 4 s)
          else if prefix "false" s then Some (PBool false, drop 5 s)
          else if prefix "NaN" s then Some (PFloat "nan" true, drop 3 s)
          else if prefix "Infinity" s then Some (PFloat "inf" true, drop 8 s)
          else if prefix "-Infinity" s then Some (PFloat "-inf" true, drop 9 s)
          else number s
      end
  end.

Definition loads (s : string) : option pyval :=
  match value (S (String.length s)) (skip_ws s) with
  | Some (v, rest) =>
      match skip_ws rest with
      | EmptyString => Some v
      | _ => None
      end
  | None => None
  end.

End Json.

(** ** Ports and records for running the model *)

Module Fixtures.

Fixpoint prompts (h : history) : nat :=
  match h with
  | [] => O
  | Prompt _ _ :: h' => S (prompts h')
  | Search _ _ :: h' => prompts h'
  end.

(** Ports that answer the k-th completion call with the k-th of [replies]
    ([otherwise] beyond them) and every search with [found]. *)
Definition scripted (replies : list (reply string)) (otherwise : reply string)
  (found : reply (list SearchResult.t)) : Ports :=
  {| llm_prompt := fun h _ _ => nth (prompts h) replies otherwise;
     scraper_search_as_dict := fun _ _ _ => found |}.

(** Ports that answer every completion call with [said] and every search
    with [found]. *)
Definition always (said : reply string) (found : reply (list SearchResult.t)) : Ports :=
  {| llm_prompt := fun _ _ _ => said;
     scraper_search_as_dict := fun _ _ _ => found |}.

(** [{"key": value}] with a literal [value] *)
Definition object1 (key value : string) : string :=
  "{" ++ dq ++ key ++ dq ++ ": " ++ value ++ "}".

Definition quoted (s : string) : string := dq ++ s ++ dq.

(** [{"needs_search": true, "reason": "recent news"}] *)
Definition decision_yes : string :=
  "{" ++ quoted "needs_search" ++ ": true, " ++ quoted "reason" ++ ": "
      ++ quoted "recent news" ++ "}".

(** The same object in a code fence, all on one line. *)
Definition decision_fenced_on_one_line : string := "```json " ++ decision_yes ++ "```".

(** [{"keywords": "rocq release"}] in a code fence, all on one line. *)
Definition keywords_fenced_on_one_line : string :=
  "```json " ++ object1 "keywords" (quoted "rocq release") ++ "```".

(** The object of the decision stage in a fence that spans lines. *)
Definition decision_fenced : string :=
  "```json" ++ nl ++ decision_yes ++ nl ++ "```".

Definition one_result : SearchResult.t :=
  SearchResult.make (PStr "Rocq 9.1") (PStr "https://rocq-prover.org") (PStr "Release notes").

Definition question : string := "What is new in Rocq?".

(** [{"keywords": "rocq release"}] *)
Definition keywords_reply : string := object1 "keywords" (quoted "rocq release").

(** A run that decides for a search, extracts keywords, finds [found] and
    gets [said] from the synthesis call. *)
Definition searching (said : reply string) (found : reply (list SearchResult.t)) : Ports :=
  scripted [Returned decision_fenced; Returned keywords_reply] said found.

(** The calls of such a run up to the search. *)
Definition calls_to_search : history :=
  [Prompt (DECISION_PROMPT question) 0.1;
   Prompt (KEYWORD_PROMPT question) 0.1;
   Search (PStr "rocq release") 5].

(** The prompt of the synthesis from [one_result], and the calls of a run
    that got that far. *)
Definition results_prompt : string :=
  ANSWER_WITH_SEARCH_PROMPT question (Agent.format_results 1 [one_result] "").

Definition calls_to_synthesis : history :=
  (calls_to_search ++ [Prompt results_prompt 0.7])%list.

(** What such a run returns when the synthesis call said "Rocq 9.1 is out." *)
Definition answered : AnswerResult.t :=
  AnswerResult.make question "Rocq 9.1 is out." true [one_result] (PStr "recent news").

(** The payload [{"organic": [{"title": "", "link": "http://x"},
    {"title": "A", "link": "http://y", "snippet": "d"}]}], and its items. *)
Definition organic_items : list (list (string * pyval)) :=
  [ [("title", PStr ""); ("link", PStr "http://x")];
    [("title", PStr "A"); ("link", PStr "http://y"); ("snippet", PStr "d")] ].

Definition organic_payload : list (string * pyval) :=
  [("organic", PList (map PDict organic_items))].

End Fixtures.

(** ** What the specification calls things *)

Module Spec.

(** The answer of the decision stage when it could not decide. *)
Definition undecided : pyval * pyval :=
  (PBool false, PStr "Failed to determine, using direct answer").

(** The answer text made of a completion failure's message. *)
Definition error_answer (message : string) : string :=
  "Sorry, I encountered an error: " ++ message.

(** The answer field after a synthesis call replied [r]. *)
Definition answer_of (r : reply string) : string :=
  match r with
  | Returned text => text
  | Failed message _ => error_answer message
  end.

(** A search was attempted: the calls hold a call of the search port. *)
Definition is_search (e : event) : bool :=
  match e with
  | Search _ _ => true
  | Prompt _ _ => false
  end.

(** The record an organic item stands for: its title, its link (or url),
    its description (or snippet). *)
Definition record_of (item : list (string * pyval)) : SearchResult.t :=
  let get k default := match dict_lookup k item with Some v => v | None => default end in
  SearchResult.make
    (get "title" (PStr ""))
    (py_or (get "link" PNone) (get "url" (PStr "")))
    (py_or (get "description" PNone) (get "snippet" (PStr ""))).

(** A record is valid when its title and its URL are both non-empty. *)
Definition valid (r : SearchResult.t) : bool :=
  truthy (SearchResult.title r) && truthy (SearchResult.url r).

(** Where a payload carries its body: under "body" or as the payload itself,
    as a value or as JSON text to decode once more. *)
Definition body_of (loads : string -> option pyval) (data : list (string * pyval))
  : option pyval :=
  match dict_lookup "body" data with
  | Some (PStr s) => loads s
  | Some v => Some v
  | None => Some (PDict data)
  end.

(** Where a body carries its result list: under "organic" or, when that is
    missing or empty, under "organic_results". *)
Definition organic_of (body : list (string * pyval)) : pyval :=
  match dict_lookup "organic" body with
  | Some v => if truthy v then v
              else match dict_lookup "organic_results" body with
                   | Some w => py_or w (PList [])
                   | None => PList []
                   end
  | None => match dict_lookup "organic_results" body with
            | Some w => py_or w (PList [])
            | None => PList []
            end
  end.

(** The numbered block of the result at 1-based position [index]:
    "index. title", "URL: url", "description", each on a line of its own. *)
Definition numbered_block (index : nat) (r : SearchResult.t) : string :=
  nl ++ str_of_int (Z.of_nat index) ++ ". " ++ py_str (SearchResult.title r) ++ nl
     ++ "   URL: " ++ py_str (SearchResult.url r) ++ nl
     ++ "   " ++ py_str (SearchResult.description r) ++ nl.

(** The blocks of [rs] in order, the first one numbered [first]. *)
Fixpoint numbered_blocks (first : nat) (rs : list SearchResult.t) : string :=
  match rs with
  | [] => EmptyString
  | r :: rs' => numbered_block first r ++ numbered_blocks (S first) rs'
  end.

End Spec.

(** ** The steps of [answer], named *)

Module Steps.

(** The dictionary [answer] starts from (lines 182-188). *)
Definition initial (question : string) : AnswerResult.t :=
  AnswerResult.make question "" false [] (PStr "").

(** A synthesis stage called on the frame [s] with prompt [p], and the
    assignment of its reply to the answer; its failure is raised with the
    result as it was. *)
Definition synthesis (ports : Ports) (p : string) (s : Agent.frame)
  : outcome unit * Agent.frame :=
  match llm_prompt ports (snd s) p 0.7 with
  | Returned text =>
      (Ok tt, (AnswerResult.set_answer text (fst s), (snd s ++ [Prompt p 0.7])%list))
  | Failed m c => (Raise (LLMError m c), (fst s, (snd s ++ [Prompt p 0.7])%list))
  end.

(** What [answer] makes of the end of its [try] block (lines 217-222). *)
Definition settle (x : outcome unit * Agent.frame) : outcome AnswerResult.t * history :=
  match x with
  | (Ok _, (r, h)) => (Ok r, h)
  | (Raise (LLMError m _), (r, h)) =>
      (Ok (AnswerResult.set_answer (Spec.error_answer m) r), h)
  | (Raise e, (_, h)) => (Raise e, h)
  end.

End Steps.

(** ** The transport under the two clients

    What [await client.post(...)] gives inside the clients' [try] blocks:
    [httpx.TimeoutException], another [httpx.RequestError] with its
    [str(e)], or a response with its [status_code] and [text];
    [response.json()] is [loads] of that text. *)

Module Http.

Record Response : Type := { status_code : Z; text : string }.

Inductive posted : Type :=
| TimedOut
| RequestFailed (str_e : string)
| Responded (response : Response).

End Http.

(** [urllib.parse.quote_plus] on text, to run the model with: a space is a
    plus sign, letters, digits and [_.-~] stay, every other character is
    the percent escapes of its UTF-8 bytes. *)
Module Urllib.

Definition always_safe (c : ascii) : bool :=
  let n := nat_of_ascii c in
  ((65 <=? n) && (n <=? 90) || (97 <=? n) && (n <=? 122) || (48 <=? n) && (n <=? 57)
   || (n =? 95) || (n =? 46) || (n =? 45) || (n =? 126))%nat.

Definition hex_upper (n : nat) : ascii :=
  ascii_of_nat (if (n <? 10)%nat then 48 + n else 55 + n).

Definition percent (byte : nat) : string :=
  String "%" (String (hex_upper (byte / 16)) (String (hex_upper (byte mod 16)) EmptyString)).

Definition utf8 (c : ascii) : list nat :=
  let n := nat_of_ascii c in
  if (n <? 128)%nat then [n] else [192 + n / 64; 128 + n mod 64]%nat.

Fixpoint quote_plus (s : string) : string :=
  match s with
  | EmptyString => EmptyString
  | String c s' =>
      (if (nat_of_ascii c =? 32)%nat then "+"
       else if always_safe c then String c EmptyString
       else String.concat EmptyString (map percent (utf8 c)))
      ++ quote_plus s'
  end.

End Urllib.

(** ** scraper.py: [ScraperClient.search] and [search_as_dict] *)

Module ScraperClient.

(** The dictionary [payload] of [search]. *)
Record Payload : Type := {
  zone : string;
  format : string;
  data_format : string;
  url : string
}.

Section Client.

(** [json.loads]; [quote_plus] on text; [client.post(url, headers=...,
    json=...)]; and [self.api_token], [self.base_url]. *)
Variable loads : string -> option pyval.
Variable quote_plus : string -> string.
Variable post : string -> list (string * string) -> Payload -> Http.posted.
Variables api_token base_url : string.

Definition _get_headers : list (string * string) :=
  [("Authorization", "Bearer " ++ api_token); ("Content-Type", "application/json")].

(** Lines 114-119: the detail of a response that is not a success. *)
Definition error_detail (response : Http.Response) : pyval :=
  match loads (Http.text response) with
  | Some (PDict error_json) =>
      match dict_lookup "error" error_json with
      | Some v => v
      | None => PStr (Http.text response)
      end
  | _ => PStr (Http.text response)
  end.

(** [search(query, num_results)]: [quote_plus] raises [TypeError] on a
    query that is no text. *)
Definition search (query : pyval) (num_results : Z) : outcome (list SearchResult.t) :=
  match query with
  | PStr q =>
      let encoded_query := quote_plus q in
      let google_url :=
        "https://www.google.com/search?q=" ++ encoded_query ++ "&num="
          ++ str_of_int num_results in
      let payload :=
        {| zone := "serp_api1"; format := "json"; data_format := "parsed_light";
           url := google_url |} in
      match post base_url _get_headers payload with
      | Http.TimedOut => Raise (ScraperError "Request timed out" None)
      | Http.RequestFailed e => Raise (ScraperError ("Request failed: " ++ e) None)
      | Http.Responded response =>
          if negb (Http.status_code response =? 200)%Z then
            Raise (ScraperError ("API request failed: " ++ py_str (error_detail response))
                     (Some (Http.status_code response)))
          else
            match loads (Http.text response) with
            | None => Raise JSONDecodeError
            | Some data => Scraper._parse_search_results loads data
            end
      end
  | _ => Raise TypeError
  end.

Definition search_as_dict (query : pyval) (num_results : Z) : outcome (list pyval) :=
  (results <- search query num_results ;;
   Ok (map SearchResult.to_dict results))%out.

End Client.
End ScraperClient.

(** ** llm.py: [LLMClient] *)

Module Llm.

(** [chat] can raise what [exn] has and, from its subscripts, [KeyError]. *)
Inductive result (A : Type) : Type :=
| Value (a : A)
| Raised (e : exn)
| KeyError (key : pyval).
Arguments Value {A} a.
Arguments Raised {A} e.
Arguments KeyError {A} key.

Definition then_ {A B : Type} (r : result A) (k : A -> result B) : result B :=
  match r with
  | Value a => k a
  | Raised e => Raised e
  | KeyError key => KeyError key
  end.

(** [v[key]] for a text key *)
Definition getitem (v : pyval) (key : string) : result pyval :=
  match v with
  | PDict d =>
      match dict_lookup key d with
      | Some x => Value x
      | None => KeyError (PStr key)
      end
  | _ => Raised TypeError
  end.

(** [v[i]] for an index [0 <= i]: a dictionary decoded from JSON has text
    keys only. *)
Definition getindex (v : pyval) (i : nat) : result pyval :=
  match v with
  | PList xs =>
      match nth_error xs i with
      | Some x => Value x
      | None => Raised IndexError
      end
  | PStr s =>
      match String.get i s with
      | Some c => Value (PStr (String c EmptyString))
      | None => Raised IndexError
      end
  | PDict _ => KeyError (PInt (Z.of_nat i))
  | _ => Raised TypeError
  end.

Record Message : Type := { role : string; content : string }.

(** The dictionary [payload] of [chat]; [max_tokens] is the key that may
    be missing. *)
Record Payload : Type := {
  model : string;
  messages : list Message;
  temperature : Q;
  max_tokens : option Z
}.

Section Client.

Variable loads : string -> option pyval.
Variable post : string -> list (string * string) -> Payload -> Http.posted.
(** [self.api_token], [self.model], [self.base_url] *)
Variables api_token self_model base_url : string.

Definition _get_headers : list (string * string) :=
  [("Authorization", "Bearer " ++ api_token); ("Content-Type", "application/json")].

(** Lines 76-81: the detail of a response that is not a success; an
    exception on the way leaves it the response's text. *)
Definition error_detail (response : Http.Response) : pyval :=
  match loads (Http.text response) with
  | Some (PDict error_json) =>
      match (match dict_lookup "error" error_json with
             | Some v => v
             | None => PDict []
             end) with
      | PDict error =>
          match dict_lookup "message" error with
          | Some v => v
          | None => PStr (Http.text response)
          end
      | _ => PStr (Http.text response)
      end
  | _ => PStr (Http.text response)
  end.

Definition chat (messages : list Message) (model : option string) (temperature : Q)
  (max_tokens : option Z) : result pyval :=
  let payload :=
    {| Llm.model := match model with
                    | Some m => if m =? "" then self_model else m
                    | None => self_model
                    end;
       Llm.messages := messages;
       Llm.temperature := temperature;
       Llm.max_tokens := match max_tokens with
                         | Some n => if (n =? 0)%Z then None else Some n
                         | None => None
                         end |} in
  match post (base_url ++ "/v1/chat/completions") _get_headers payload with
  | Http.TimedOut => Raised (LLMError "Request timed out" None)
  | Http.RequestFailed e => Raised (LLMError ("Request failed: " ++ e) None)
  | Http.Responded response =>
      if negb (Http.status_code response =? 200)%Z then
        Raised (LLMError ("API request failed: " ++ py_str (error_detail response))
                  (Some (Http.status_code response)))
      else
        match loads (Http.text response) with
        | None => Raised JSONDecodeError
        | Some data =>
            then_ (getitem data "choices") (fun choices =>
            then_ (getindex choices 0) (fun choice =>
            then_ (getitem choice "message") (fun message =>
            getitem message "content")))
        end
  end.

(** [prompt(prompt, system_prompt, **kwargs)], the keyword arguments being
    those of [chat]. *)
Definition prompt (prompt : string) (system_prompt : option string)
  (model : option string) (temperature : Q) (max_tokens : option Z) : result pyval :=
  let messages := [] in
  let messages :=
    match system_prompt with
    | Some s => if s =? "" then messages
                else (messages ++ [{| role := "system"; content := s |}])%list
    | None => messages
    end in
  let messages := (messages ++ [{| role := "user"; content := prompt |}])%list in
  chat messages model temperature max_tokens.

End Client.
End Llm.

(** ** config.py: [Settings.parse_cors_origins] *)

Module Config.

(** [s.split(sep)] for a separator of one character *)
Fixpoint split (s : string) (sep : ascii) : list string :=
  match s with
  | EmptyString => [EmptyString]
  | String c s' =>
      if Ascii.eqb c sep then EmptyString :: split s' sep
      else match split s' sep with
           | x :: xs => String c x :: xs
           | [] => [String c EmptyString]
           end
  end.

(** The setting is text or already a list. *)
Definition parse_cors_origins (v : string + list string) : list string :=
  match v with
  | inl v =>
      map strip (filter (fun origin => negb (strip origin =? "")) (split v ","%char))
  | inr v => v
  end.

End Config.

(** ** main.py: the [/api/query] route *)

Module Server.

(** What the route gives: a response, the [HTTPException] it raises, an
    exception of [answer] it lets through, or the [ValidationError] of
    [QueryResponse]. *)
Inductive served (R : Type) : Type :=
| Replied (response : R)
| HTTPException (status_code : Z) (detail : string)
| Unhandled (e : exn)
| ValidationError.
Arguments Replied {R} response.
Arguments HTTPException {R} status_code detail.
Arguments Unhandled {R} e.
Arguments ValidationError {R}.

Section Route.

Variable loads : string -> option pyval.
Variable ports : Ports.
(** [QueryResponse(answer=..., used_search=..., search_results=...,
    reason=...)]: the model's validation, [None] when it refuses. *)
Variable R : Type.
Variable QueryResponse :
  string -> bool -> list SearchResult.t -> pyval -> option R.

Definition query (request_query : string) (request_use_web_search : bool)
  : history -> served R * history :=
  fun h =>
    if strip request_query =? "" then (HTTPException 400 "Query cannot be empty", h)
    else
      match Agent.answer loads ports request_query request_use_web_search h with
      | (Ok result, h') =>
          (match QueryResponse (AnswerResult.answer result)
                   (AnswerResult.used_search result)
                   (AnswerResult.search_results result)
                   (AnswerResult.reason result) with
           | Some response => Replied response
           | None => ValidationError
           end, h')
      | (Raise e, h') => (Unhandled e, h')
      end.

End Route.
End Server.

(** ** Words for the properties of the other functions *)

Module Words.

(** Text made of whitespace only. *)
Fixpoint blank (s : string) : bool :=
  match s with
  | EmptyString => true
  | String c s' => is_space c && blank s'
  end.

(** No whitespace at the head. *)
Definition head_kept (s : string) : Prop :=
  match s with
  | EmptyString => True
  | String c _ => is_space c = false
  end.

(** The completion calls among some calls. *)
Definition completions (calls : history) : list event :=
  filter (fun e => negb (Spec.is_search e)) calls.

Definition searches (calls : history) : list event := filter Spec.is_search calls.

(** A response in the shape [chat] reads: an object whose "choices" is a
    list that starts with an object whose "message" is an object with
    "content" [c]. *)
Definition first_content (data c : pyval) : Prop :=
  exists d choice rest message,
    data = PDict d
    /\ dict_lookup "choices" d = Some (PList (PDict choice :: rest))
    /\ dict_lookup "message" choice = Some (PDict message)
    /\ dict_lookup "content" message = Some c.

(** A record that [to_dict] and the parser give back unchanged: valid, with
    a description that is non-empty or the empty text. *)
Definition stable (r : SearchResult.t) : Prop :=
  Spec.valid r = true
  /\ (truthy (SearchResult.description r) = true
      \/ SearchResult.description r = PStr "").

End Words.

(** ** Responses and payloads for running the other functions *)

Module Samples.

(** [{"organic": [{"title": "A", "link": "http://y", "snippet": "d"}]}] *)
Definition serp_text : string :=
  Fixtures.object1 "organic"
    ("[{" ++ Fixtures.quoted "title" ++ ": " ++ Fixtures.quoted "A" ++ ", "
          ++ Fixtures.quoted "link" ++ ": " ++ Fixtures.quoted "http://y" ++ ", "
          ++ Fixtures.quoted "snippet" ++ ": " ++ Fixtures.quoted "d" ++ "}]").

(** A search transport that always responds [status] with [text]. *)
Definition serp (status : Z) (text : string)
  : string -> list (string * string) -> ScraperClient.Payload -> Http.posted :=
  fun _ _ _ => Http.Responded {| Http.status_code := status; Http.text := text |}.

(** An organic list whose second item is text, not an object. *)
Definition payload_with_text_item : list (string * pyval) :=
  [("organic", PList [PDict [("title", PStr "A"); ("link", PStr "http://y")]; PStr "oops"])].

(** [{"choices": [{"message": {"content": "4"}}]}] *)
Definition chat_text : string :=
  Fixtures.object1 "choices"
    ("[" ++ Fixtures.object1 "message" (Fixtures.object1 "content" (Fixtures.quoted "4"))
         ++ "]").

(** [{"error": {"message": "model overloaded"}}] *)
Definition chat_error_text : string :=
  Fixtures.object1 "error" (Fixtures.object1 "message" (Fixtures.quoted "model overloaded")).

(** A completion transport that always responds [status] with [text]. *)
Definition completion (status : Z) (text : string)
  : string -> list (string * string) -> Llm.Payload -> Http.posted :=
  fun _ _ _ => Http.Responded {| Http.status_code := status; Http.text := text |}.

(** A setting with blanks around an origin and an empty piece. *)
Definition origins_text : string := " http://a.com , ,http://b.com".

(** A fenced reply with whitespace around it. *)
Definition fenced_reply : string :=
  " " ++ "```" ++ "json" ++ nl ++ (Fixtures.decision_yes ++ nl) ++ "```" ++ nl.


End Samples.

(** ** The text around the results in the search-augmented prompt

    Lines 45-56 of agent.py, written out as the text before the
    [{search_results}] field (with the question in it) and the text after
    it. *)

Module Layout.

Definition results_head (question : string) : string :=
  "You are a helpful research assistant. Answer the user's question using the search results provided."
    ++ nl ++ nl
    ++ "Question: " ++ question ++ nl ++ nl
    ++ "Search Results:" ++ nl.

Definition results_tail : string :=
  nl ++ nl
    ++ "Instructions:" ++ nl
    ++ "- Provide a comprehensive answer based on the search results" ++ nl
    ++ "- If the search results don't contain relevant information, say so" ++ nl
    ++ "- Cite sources when possible by mentioning the source title" ++ nl
    ++ "- Be concise but thorough".

End Layout.

(** * Properties *)

Import Agent.

(** ** Strings and the code fence *)

Lemma app_nil_end (s : string) : s ++ "" = s.
Proof. induction s as [|c s IH]; simpl; [reflexivity | now rewrite IH]. Qed.

Lemma app_string_assoc (a b c : string) : (a ++ b) ++ c = a ++ (b ++ c).
Proof. induction a as [|x a IH]; simpl; [reflexivity | now rewrite IH]. Qed.

(** Indexing the head of [rsplit] never fails: the list has one or two
    elements. *)
Lemma rsplit1_head (s sep : string) : exists a, item (rsplit1 s sep) 0 = Ok a.
Proof.
  unfold rsplit1, item. destruct (cut_last sep s) as [[a b]|]; simpl; eauto.
Qed.

(** The only exception of the fence removal is the [IndexError] of
    [split(nl, 1)[1]] on a fenced response of a single line. *)
Lemma unfence_raises (response : string) (e : exn) :
  unfence response = Raise e -> e = IndexError.
Proof.
  unfold unfence. destruct (startswith (strip response) "```"); [|discriminate].
  unfold split1. destruct (cut_first nl (strip response)) as [[a b]|]; simpl.
  - destruct (rsplit1_head b "```") as [x Hx]. rewrite Hx. discriminate.
  - intros H. now inversion H.
Qed.

(** A response that is not fenced is only stripped. *)
Lemma unfence_plain (response : string) :
  startswith (strip response) "```" = false -> unfence response = Ok (strip response).
Proof. unfold unfence. now intros ->. Qed.

(** ** The stages, call by call *)

Section Stages.

Variable loads : string -> option pyval.
Variable ports : Ports.

Lemma needs_web_search_calls (q : string) (h : history) :
  snd (_needs_web_search loads ports q h) = (h ++ [Prompt (DECISION_PROMPT q) 0.1])%list.
Proof.
  unfold _needs_web_search, try_except, bind, llm, lift, ret, json_loads.
  destruct (llm_prompt ports h _ _) as [resp|m c]; simpl; [|reflexivity].
  destruct (unfence resp) as [s|e] eqn:Hu; simpl.
  - destruct (loads s) as [[| | | | |xs|d]|]; reflexivity.
  - rewrite (unfence_raises _ _ Hu). reflexivity.
Qed.

Lemma extract_keywords_calls (q : string) (h : history) :
  snd (_extract_keywords loads ports q h) = (h ++ [Prompt (KEYWORD_PROMPT q) 0.1])%list.
Proof.
  unfold _extract_keywords, try_except, bind, llm, lift, ret, json_loads.
  destruct (llm_prompt ports h _ _) as [resp|m c]; simpl; [|reflexivity].
  destruct (unfence resp) as [s|e] eqn:Hu; simpl.
  - destruct (loads s) as [[| | | | |xs|d]|]; reflexivity.
  - rewrite (unfence_raises _ _ Hu). reflexivity.
Qed.

(** The decision stage, by what the completion port replied. *)
Lemma needs_web_search_failed (q : string) (h : history) (m : string) (c : option Z) :
  llm_prompt ports h (DECISION_PROMPT q) 0.1 = Failed m c ->
  fst (_needs_web_search loads ports q h) = Ok Spec.undecided.
Proof.
  intros H. unfold _needs_web_search, try_except, bind, llm. rewrite H. reflexivity.
Qed.

Lemma needs_web_search_not_json (q : string) (h : history) (resp s : string) :
  llm_prompt ports h (DECISION_PROMPT q) 0.1 = Returned resp ->
  unfence resp = Ok s -> loads s = None ->
  fst (_needs_web_search loads ports q h) = Ok Spec.undecided.
Proof.
  intros H Hu Hl.
  unfold _needs_web_search, try_except, bind, llm, lift, json_loads.
  rewrite H; simpl. rewrite Hu; simpl. rewrite Hl. reflexivity.
Qed.

Lemma needs_web_search_object (q : string) (h : history) (resp s : string)
  (d : list (string * pyval)) :
  llm_prompt ports h (DECISION_PROMPT q) 0.1 = Returned resp ->
  unfence resp = Ok s -> loads s = Some (PDict d) ->
  fst (_needs_web_search loads ports q h)
  = Ok (match dict_lookup "needs_search" d with Some v => v | None => PBool false end,
        match dict_lookup "reason" d with Some v => v | None => PStr "" end).
Proof.
  intros H Hu Hl.
  unfold _needs_web_search, try_except, bind, llm, lift, json_loads.
  rewrite H; simpl. rewrite Hu; simpl. rewrite Hl. reflexivity.
Qed.

(** Whenever the decision stage returns, the completion call failed or its
    response was not JSON, and it returns the fallback; or it returns the
    two fields of the object the response decoded to. *)
Lemma needs_web_search_returns (q : string) (h h1 : history) (ns rsn : pyval) :
  _needs_web_search loads ports q h = (Ok (ns, rsn), h1) ->
  ((exists m c, llm_prompt ports h (DECISION_PROMPT q) 0.1 = Failed m c)
   \/ (exists resp s, llm_prompt ports h (DECISION_PROMPT q) 0.1 = Returned resp
                      /\ unfence resp = Ok s /\ loads s = None))
  /\ (ns, rsn) = Spec.undecided
  \/ exists resp s d,
       llm_prompt ports h (DECISION_PROMPT q) 0.1 = Returned resp
       /\ unfence resp = Ok s /\ loads s = Some (PDict d)
       /\ ns = match dict_lookup "needs_search" d with Some v => v | None => PBool false end
       /\ rsn = match dict_lookup "reason" d with Some v => v | None => PStr "" end.
Proof.
  unfold _needs_web_search, try_except, bind, llm, lift, ret, json_loads.
  destruct (llm_prompt ports h _ _) as [resp|m c] eqn:H; simpl.
  - destruct (unfence resp) as [s|e] eqn:Hu; simpl.
    + destruct (loads s) as [v|] eqn:Hl; simpl.
      * destruct v; simpl; try discriminate.
        intros E. inversion E; subst. right. exists resp, s, kvs. auto.
      * intros E. inversion E; subst. left. split; [right; eauto | reflexivity].
    + rewrite (unfence_raises _ _ Hu). discriminate.
  - intros E. inversion E; subst. left. split; [left; eauto | reflexivity].
Qed.

(** The decision and keyword stages absorb [LLMError]: what they raise is
    an [IndexError] or an [AttributeError]. *)
Lemma needs_web_search_raises (q : string) (h : history) (e : exn) :
  fst (_needs_web_search loads ports q h) = Raise e -> e = IndexError \/ e = AttributeError.
Proof.
  unfold _needs_web_search, try_except, bind, llm, lift, ret, json_loads.
  destruct (llm_prompt ports h _ _) as [resp|m c]; simpl; [|discriminate].
  destruct (unfence resp) as [s|e'] eqn:Hu; simpl.
  - destruct (loads s) as [[| | | | |xs|d]|]; simpl; try discriminate;
      intros E; inversion E; auto.
  - rewrite (unfence_raises _ _ Hu). simpl. intros E; inversion E; auto.
Qed.

Lemma extract_keywords_raises (q : string) (h : history) (e : exn) :
  fst (_extract_keywords loads ports q h) = Raise e -> e = IndexError \/ e = AttributeError.
Proof.
  unfold _extract_keywords, try_except, bind, llm, lift, ret, json_loads.
  destruct (llm_prompt ports h _ _) as [resp|m c]; simpl; [|discriminate].
  destruct (unfence resp) as [s|e'] eqn:Hu; simpl.
  - destruct (loads s) as [[| | | | |xs|d]|]; simpl; try discriminate;
      intros E; inversion E; auto.
  - rewrite (unfence_raises _ _ Hu). simpl. intros E; inversion E; auto.
Qed.

(** The keyword stage falls back to the question on a completion failure
    and on a response that is not JSON. *)
Lemma extract_keywords_failed (q : string) (h : history) (m : string) (c : option Z) :
  llm_prompt ports h (KEYWORD_PROMPT q) 0.1 = Failed m c ->
  fst (_extract_keywords loads ports q h) = Ok (PStr q).
Proof.
  intros H. unfold _extract_keywords, try_except, bind, llm. rewrite H. reflexivity.
Qed.

Lemma extract_keywords_not_json (q : string) (h : history) (resp s : string) :
  llm_prompt ports h (KEYWORD_PROMPT q) 0.1 = Returned resp ->
  unfence resp = Ok s -> loads s = None ->
  fst (_extract_keywords loads ports q h) = Ok (PStr q).
Proof.
  intros H Hu Hl.
  unfold _extract_keywords, try_except, bind, llm, lift, json_loads.
  rewrite H; simpl. rewrite Hu; simpl. rewrite Hl. reflexivity.
Qed.

(** The search stage never raises: a failure of the port is an empty list. *)
Lemma search_web_run (kw : pyval) (n : Z) (h : history) :
  _search_web ports kw n h
  = (Ok (match scraper_search_as_dict ports h kw n with
         | Returned rs => rs
         | Failed _ _ => []
         end), (h ++ [Search kw n])%list).
Proof.
  unfold _search_web, try_except, bind, scraper, ret.
  destruct (scraper_search_as_dict ports h kw n); reflexivity.
Qed.

(** The synthesis stages make one call and pass its reply on. *)
Lemma answer_direct_run (q : string) (h : history) :
  _answer_direct ports q h
  = (match llm_prompt ports h (ANSWER_DIRECT_PROMPT q) 0.7 with
     | Returned text => Ok text
     | Failed m c => Raise (LLMError m c)
     end, (h ++ [Prompt (ANSWER_DIRECT_PROMPT q) 0.7])%list).
Proof.
  unfold _answer_direct, bind, llm, ret.
  destruct (llm_prompt ports h _ _); reflexivity.
Qed.

Lemma answer_with_results_run (q : string) (rs : list SearchResult.t) (h : history) :
  _answer_with_results ports q rs h
  = (match llm_prompt ports h (ANSWER_WITH_SEARCH_PROMPT q (format_results 1 rs "")) 0.7 with
     | Returned text => Ok text
     | Failed m c => Raise (LLMError m c)
     end,
     (h ++ [Prompt (ANSWER_WITH_SEARCH_PROMPT q (format_results 1 rs "")) 0.7])%list).
Proof.
  unfold _answer_with_results, bind, llm, ret.
  destruct (llm_prompt ports h _ _); reflexivity.
Qed.

End Stages.

(** ** The orchestrator, stage by stage *)

Section Orchestrator.

Variable loads : string -> option pyval.
Variable ports : Ports.

(** The [try] block as a function of what its stages give. *)
Lemma answer_try_run (q : string) (use : bool) (r : AnswerResult.t) (h : history) :
  answer_try loads ports q use (r, h)
  = if negb use then
      Steps.synthesis ports (ANSWER_DIRECT_PROMPT q)
        (AnswerResult.set_reason (PStr "Web search disabled") r, h)
    else
      match _needs_web_search loads ports q h with
      | (Raise e, h1) => (Raise e, (r, h1))
      | (Ok (ns, rsn), h1) =>
          if truthy ns then
            match _extract_keywords loads ports q h1 with
            | (Raise e, h2) => (Raise e, (AnswerResult.set_reason rsn r, h2))
            | (Ok kw, h2) =>
                let rs := match scraper_search_as_dict ports h2 kw 5 with
                          | Returned rs => rs
                          | Failed _ _ => []
                          end in
                Steps.synthesis ports
                  (match rs with
                   | [] => ANSWER_DIRECT_PROMPT q
                   | _ :: _ => ANSWER_WITH_SEARCH_PROMPT q (format_results 1 rs "")
                   end)
                  (AnswerResult.set_used_search true
                     (AnswerResult.set_search_results rs (AnswerResult.set_reason rsn r)),
                   (h2 ++ [Search kw 5])%list)
            end
          else Steps.synthesis ports (ANSWER_DIRECT_PROMPT q) (AnswerResult.set_reason rsn r, h1)
      end.
Proof.
  unfold answer_try. destruct use; simpl.
  - unfold bind at 1. unfold await at 1. simpl.
    destruct (_needs_web_search loads ports q h) as [[[ns rsn]|e] h1]; [|reflexivity].
    unfold bind at 1. unfold assign at 1. simpl.
    destruct (truthy ns).
    + unfold bind at 1. unfold await at 1. simpl.
      destruct (_extract_keywords loads ports q h1) as [[kw|e] h2]; [|reflexivity].
      unfold bind at 1. unfold await at 1. simpl. rewrite search_web_run. simpl.
      unfold bind at 1. unfold assign at 1. simpl.
      unfold bind at 1. unfold assign at 1. simpl.
      destruct (scraper_search_as_dict ports h2 kw 5) as [[|x rs]|m c];
        unfold bind, await, assign, Steps.synthesis; simpl;
        rewrite ?answer_direct_run, ?answer_with_results_run;
        destruct (llm_prompt ports _ _ _); reflexivity.
    + unfold bind, await, assign, Steps.synthesis; simpl. rewrite answer_direct_run.
      destruct (llm_prompt ports _ _ _); reflexivity.
  - unfold bind, await, assign, Steps.synthesis; simpl. rewrite answer_direct_run.
    destruct (llm_prompt ports _ _ _); reflexivity.
Qed.

(** [answer] around its [try] block: an [LLMError] becomes the answer text,
    any other exception leaves [answer]. *)
Lemma answer_run (q : string) (use : bool) (h : history) :
  answer loads ports q use h
  = Steps.settle (answer_try loads ports q use (Steps.initial q, h)).
Proof.
  unfold answer, try_except, Steps.settle, Steps.initial.
  destruct (answer_try loads ports q use _) as [[u|e] [r h']]; [reflexivity|].
  destruct e; reflexivity.
Qed.

(** A run that ends in a synthesis stage returns, whatever the port
    replied. *)
Lemma settle_synthesis (p : string) (r : AnswerResult.t) (h : history) :
  Steps.settle (Steps.synthesis ports p (r, h))
  = (Ok (AnswerResult.set_answer (Spec.answer_of (llm_prompt ports h p 0.7)) r),
     (h ++ [Prompt p 0.7])%list).
Proof.
  unfold Steps.synthesis, Steps.settle. simpl.
  destruct (llm_prompt ports h p 0.7); reflexivity.
Qed.

(** A run that ends in the decision or the keyword stage leaves [answer]
    with that stage's exception. *)
Lemma settle_raised (e : exn) (r : AnswerResult.t) (h : history) :
  e = IndexError \/ e = AttributeError ->
  Steps.settle (Raise e, (r, h)) = (Raise e, h).
Proof. intros [-> | ->]; reflexivity. Qed.

End Orchestrator.

(** ** The claims about [answer] *)

Lemma temperatures_differ (a b : string) : Prompt a 0.1 <> Prompt b 0.7.
Proof. discriminate. Qed.

Lemma error_answer_not_empty (m : string) : Spec.error_answer m <> "".
Proof. discriminate. Qed.


(** C2. When the last call of a run is a synthesis call (a completion call
    at temperature 0.7) and the port failed it with message [m], the [try]
    block stopped there with the dictionary [r0], and [answer] returns
    normally: the answer is the error text built from [m], not empty, and
    the question, used_search, search_results and reason are those of
    [r0]. *)
Theorem synthesis_failure_is_answered
  (loads : string -> option pyval) (ports : Ports) (q : string) (use : bool)
  (h h' : history) (p m : string) (c : option Z) :
  snd (answer loads ports q use h) = (h' ++ [Prompt p 0.7])%list ->
  llm_prompt ports h' p 0.7 = Failed m c ->
  exists r0,
    answer_try loads ports q use (Steps.initial q, h)
    = (Raise (LLMError m c), (r0, (h' ++ [Prompt p 0.7])%list))
    /\ answer loads ports q use h
       = (Ok (AnswerResult.make q (Spec.error_answer m) (AnswerResult.used_search r0)
                (AnswerResult.search_results r0) (AnswerResult.reason r0)),
          (h' ++ [Prompt p 0.7])%list)
    /\ AnswerResult.question r0 = q
    /\ Spec.error_answer m <> ""
    /\ (p = ANSWER_DIRECT_PROMPT q
        \/ exists rs, rs <> [] /\ p = ANSWER_WITH_SEARCH_PROMPT q (format_results 1 rs "")).
Proof.
  intros Hlast Hfail.
  assert (Hsyn : forall p0 (s : frame),
    answer_try loads ports q use (Steps.initial q, h) = Steps.synthesis ports p0 s ->
    AnswerResult.question (fst s) = q ->
    exists r0,
      answer_try loads ports q use (Steps.initial q, h)
      = (Raise (LLMError m c), (r0, (h' ++ [Prompt p 0.7])%list))
      /\ answer loads ports q use h
         = (Ok (AnswerResult.make q (Spec.error_answer m) (AnswerResult.used_search r0)
                  (AnswerResult.search_results r0) (AnswerResult.reason r0)),
            (h' ++ [Prompt p 0.7])%list)
      /\ AnswerResult.question r0 = q
      /\ Spec.error_answer m <> ""
      /\ p0 = p).
  { intros p0 [r0 h0] E Hq. simpl in Hq.
    rewrite answer_run, E, settle_synthesis in Hlast. simpl in Hlast.
    apply app_inj_tail in Hlast. destruct Hlast as [Hh Hp]. inversion Hp; subst p0 h0.
    exists r0. rewrite answer_run, E, settle_synthesis. unfold Steps.synthesis. simpl.
    rewrite Hfail. simpl. unfold AnswerResult.set_answer. rewrite Hq.
    repeat split; auto using error_answer_not_empty. }
  pose proof (answer_try_run loads ports q use (Steps.initial q) h) as E.
  destruct use; simpl in E.
  - destruct (_needs_web_search loads ports q h) as [[[ns rsn]|e] h1] eqn:Hd.
    + destruct (truthy ns).
      * destruct (_extract_keywords loads ports q h1) as [[kw|e] h2] eqn:Hk.
        -- simpl in E.
           destruct (Hsyn _ _ E eq_refl) as (r0 & H1 & H2 & H3 & H4 & H5).
           exists r0. repeat split; auto.
           destruct (scraper_search_as_dict ports h2 kw 5) as [[|x rs]|m' c'];
             [now left | right | now left].
           exists (x :: rs). split; [discriminate | now symmetry].
        -- exfalso. rewrite answer_run, E in Hlast.
           pose proof (extract_keywords_calls loads ports q h1) as Hc.
           pose proof (extract_keywords_raises loads ports q h1 e) as Hr.
           rewrite Hk in Hc, Hr. simpl in Hc, Hr.
           rewrite settle_raised in Hlast by auto. simpl in Hlast. rewrite Hc in Hlast.
           apply app_inj_tail in Hlast. destruct Hlast as [_ Hp].
           exact (temperatures_differ _ _ Hp).
      * destruct (Hsyn _ _ E eq_refl) as (r0 & H1 & H2 & H3 & H4 & H5).
        exists r0. repeat split; auto.
    + exfalso. rewrite answer_run, E in Hlast.
      pose proof (needs_web_search_calls loads ports q h) as Hc.
      pose proof (needs_web_search_raises loads ports q h e) as Hr.
      rewrite Hd in Hc, Hr. simpl in Hc, Hr.
      rewrite settle_raised in Hlast by auto. simpl in Hlast. rewrite Hc in Hlast.
      apply app_inj_tail in Hlast. destruct Hlast as [_ Hp].
      exact (temperatures_differ _ _ Hp).
  - destruct (Hsyn _ _ E eq_refl) as (r0 & H1 & H2 & H3 & H4 & H5).
    exists r0. repeat split; auto.
Qed.

(** C3. Whenever [answer] returns a result: search_results is non-empty
    only if used_search is true; used_search is true exactly when the calls
    this run added hold a call of the search port; and used_search is false
    when the caller disabled search. *)
Theorem used_search_iff_search_attempted
  (loads : string -> option pyval) (ports : Ports) (q : string) (use : bool)
  (h h' : history) (r : AnswerResult.t) :
  answer loads ports q use h = (Ok r, h') ->
  exists calls,
    h' = (h ++ calls)%list
    /\ (AnswerResult.search_results r <> [] -> AnswerResult.used_search r = true)
    /\ (AnswerResult.used_search r = true <-> existsb Spec.is_search calls = true)
    /\ (use = false -> AnswerResult.used_search r = false).
Proof.
  rewrite answer_run, answer_try_run.
  destruct use; simpl.
  - pose proof (needs_web_search_calls loads ports q h) as Hc.
    pose proof (needs_web_search_raises loads ports q h) as Hr.
    destruct (_needs_web_search loads ports q h) as [[[ns rsn]|e] h1]; simpl in Hc, Hr.
    + destruct (truthy ns).
      * pose proof (extract_keywords_calls loads ports q h1) as Hc2.
        pose proof (extract_keywords_raises loads ports q h1) as Hr2.
        destruct (_extract_keywords loads ports q h1) as [[kw|e] h2]; simpl in Hc2, Hr2.
        -- rewrite settle_synthesis. intros E; inversion E; subst; clear E.
           eexists [_; _; _; _]. rewrite <- !app_assoc. simpl.
           split; [reflexivity|]. repeat split; auto; discriminate.
        -- rewrite settle_raised by auto. discriminate.
      * rewrite settle_synthesis. intros E; inversion E; subst; clear E.
        eexists [_; _]. rewrite <- !app_assoc. simpl.
        split; [reflexivity|]. repeat split; auto; discriminate.
    + rewrite settle_raised by auto. discriminate.
  - rewrite settle_synthesis. intros E; inversion E; subst; clear E.
    eexists [_]. split; [reflexivity|]. repeat split; auto; discriminate.
Qed.


(** C9, as the code has it.  Whenever [answer] returns a result, its reason
    is "Web search disabled" when the caller disabled search; otherwise it
    is the fallback text when the decision call failed or its response was
    not JSON, and else the value under "reason" of the object the response
    decoded to, the empty string when that object has none. *)
Theorem reason_is_the_routing_explanation
  (loads : string -> option pyval) (ports : Ports) (q : string) (use : bool)
  (h h' : history) (r : AnswerResult.t) :
  answer loads ports q use h = (Ok r, h') ->
  (use = false /\ AnswerResult.reason r = PStr "Web search disabled")
  \/ (use = true
      /\ ((exists m c, llm_prompt ports h (DECISION_PROMPT q) 0.1 = Failed m c)
          \/ (exists resp s, llm_prompt ports h (DECISION_PROMPT q) 0.1 = Returned resp
                             /\ unfence resp = Ok s /\ loads s = None))
      /\ AnswerResult.reason r = PStr "Failed to determine, using direct answer")
  \/ (use = true
      /\ exists resp s d,
           llm_prompt ports h (DECISION_PROMPT q) 0.1 = Returned resp
           /\ unfence resp = Ok s /\ loads s = Some (PDict d)
           /\ AnswerResult.reason r
              = match dict_lookup "reason" d with Some v => v | None => PStr "" end).
Proof.
  rewrite answer_run, answer_try_run.
  destruct use; simpl.
  - pose proof (needs_web_search_returns loads ports q h) as Hret.
    pose proof (needs_web_search_raises loads ports q h) as Hr.
    destruct (_needs_web_search loads ports q h) as [[[ns rsn]|e] h1]; simpl in Hr.
    + intros Hrun. right.
      assert (Hrsn : AnswerResult.reason r = rsn).
      { destruct (truthy ns).
        - pose proof (extract_keywords_raises loads ports q h1) as Hr2.
          destruct (_extract_keywords loads ports q h1) as [[kw|e] h2]; simpl in Hr2.
          + rewrite settle_synthesis in Hrun. now inversion Hrun.
          + rewrite settle_raised in Hrun by auto. discriminate.
        - rewrite settle_synthesis in Hrun. now inversion Hrun. }
      rewrite Hrsn.
      destruct (Hret h1 ns rsn eq_refl)
        as [[Hcause E] | (resp & s & d & H1 & H2 & H3 & _ & H5)].
      * left. inversion E; subst. auto.
      * right. split; [reflexivity|]. exists resp, s, d. auto.
    + rewrite settle_raised by auto. discriminate.
  - rewrite settle_synthesis. intros E; inversion E; subst; clear E. left; auto.
Qed.

(** ** Where the decision and keyword stages do not absorb a failure *)

Section Unabsorbed.

Variable loads : string -> option pyval.
Variable ports : Ports.

Lemma needs_web_search_fence_error (q : string) (h : history) (resp : string) :
  llm_prompt ports h (DECISION_PROMPT q) 0.1 = Returned resp ->
  unfence resp = Raise IndexError ->
  _needs_web_search loads ports q h
  = (Raise IndexError, (h ++ [Prompt (DECISION_PROMPT q) 0.1])%list).
Proof.
  intros H Hu. unfold _needs_web_search, try_except, bind, llm, lift.
  rewrite H; simpl. rewrite Hu. reflexivity.
Qed.

Lemma needs_web_search_not_object (q : string) (h : history) (resp s : string)
  (v : pyval) :
  llm_prompt ports h (DECISION_PROMPT q) 0.1 = Returned resp ->
  unfence resp = Ok s -> loads s = Some v -> (forall d, v <> PDict d) ->
  _needs_web_search loads ports q h
  = (Raise AttributeError, (h ++ [Prompt (DECISION_PROMPT q) 0.1])%list).
Proof.
  intros H Hu Hl Hv. unfold _needs_web_search, try_except, bind, llm, lift, json_loads.
  rewrite H; simpl. rewrite Hu; simpl. rewrite Hl.
  destruct v; try reflexivity. now destruct (Hv kvs).
Qed.

Lemma extract_keywords_fence_error (q : string) (h : history) (resp : string) :
  llm_prompt ports h (KEYWORD_PROMPT q) 0.1 = Returned resp ->
  unfence resp = Raise IndexError ->
  _extract_keywords loads ports q h
  = (Raise IndexError, (h ++ [Prompt (KEYWORD_PROMPT q) 0.1])%list).
Proof.
  intros H Hu. unfold _extract_keywords, try_except, bind, llm, lift.
  rewrite H; simpl. rewrite Hu. reflexivity.
Qed.

(** What C1 has right: once the decision stage has fallen back, [answer]
    goes the way of a false needs_search, with the fallback text as
    reason. *)
Lemma undecided_answers_directly (q : string) (h h1 : history) :
  _needs_web_search loads ports q h = (Ok Spec.undecided, h1) ->
  answer loads ports q true h
  = (Ok (AnswerResult.make q
           (Spec.answer_of (llm_prompt ports h1 (ANSWER_DIRECT_PROMPT q) 0.7))
           false [] (PStr "Failed to determine, using direct answer")),
     (h1 ++ [Prompt (ANSWER_DIRECT_PROMPT q) 0.7])%list).
Proof.
  intros H. rewrite answer_run, answer_try_run. simpl. rewrite H. simpl.
  now rewrite settle_synthesis.
Qed.

(** What C8 has right: the query of the search call is the question itself
    once the keyword stage has fallen back. *)
Lemma fallback_query_is_the_question (q : string) (h h1 h2 : history) (ns rsn : pyval) :
  _needs_web_search loads ports q h = (Ok (ns, rsn), h1) ->
  truthy ns = true ->
  _extract_keywords loads ports q h1 = (Ok (PStr q), h2) ->
  exists p, snd (answer loads ports q true h)
            = (h2 ++ [Search (PStr q) 5; Prompt p 0.7])%list.
Proof.
  intros Hd Hns Hk. rewrite answer_run, answer_try_run. simpl.
  rewrite Hd, Hns, Hk. rewrite settle_synthesis. simpl.
  eexists. rewrite <- app_assoc. reflexivity.
Qed.

End Unabsorbed.

Lemma unfence_decision_on_one_line :
  unfence Fixtures.decision_fenced_on_one_line = Raise IndexError.
Proof. reflexivity. Qed.

Lemma unfence_keywords_on_one_line :
  unfence Fixtures.keywords_fenced_on_one_line = Raise IndexError.
Proof. reflexivity. Qed.

Lemma unfence_decision_fenced :
  unfence Fixtures.decision_fenced = Ok (Fixtures.decision_yes ++ nl).
Proof. reflexivity. Qed.

(** A response that is JSON but no object: [data.get] raises
    [AttributeError], which leaves the decision stage and [answer]. *)
Example decision_array_raises :
  let ports := Fixtures.always (Returned "[]") (Returned []) in
  _needs_web_search Json.loads ports Fixtures.question []
  = (Raise AttributeError, [Prompt (DECISION_PROMPT Fixtures.question) 0.1])
  /\ answer Json.loads ports Fixtures.question true []
     = (Raise AttributeError, [Prompt (DECISION_PROMPT Fixtures.question) 0.1]).
Proof. split; reflexivity. Qed.

(** C1, at a failing input.  When the completion port answers the decision
    call with the object in a code fence written on one line, the decision
    stage raises [IndexError], and so does [answer]: no fallback is
    returned. *)
Theorem decision_fence_on_one_line_raises
  (loads : string -> option pyval) (q : string) (h : history) :
  let ports := Fixtures.always (Returned Fixtures.decision_fenced_on_one_line) (Returned []) in
  _needs_web_search loads ports q h
  = (Raise IndexError, (h ++ [Prompt (DECISION_PROMPT q) 0.1])%list)
  /\ answer loads ports q true h
     = (Raise IndexError, (h ++ [Prompt (DECISION_PROMPT q) 0.1])%list).
Proof.
  intros ports.
  assert (H : _needs_web_search loads ports q h
              = (Raise IndexError, (h ++ [Prompt (DECISION_PROMPT q) 0.1])%list)).
  { apply needs_web_search_fence_error with (resp := Fixtures.decision_fenced_on_one_line);
      [reflexivity | exact unfence_decision_on_one_line]. }
  split; [exact H|].
  rewrite answer_run, answer_try_run. simpl negb. cbv iota. rewrite H. reflexivity.
Qed.

(** C8, at a failing input.  When the completion port answers the keyword
    call with the object in a code fence written on one line, the keyword
    stage raises [IndexError]; after a decision for a search, [answer]
    raises it too, and no search call is made. *)
Theorem keyword_fence_on_one_line_raises
  (loads : string -> option pyval) (q : string) (h : history) :
  _extract_keywords loads
    (Fixtures.always (Returned Fixtures.keywords_fenced_on_one_line) (Returned [])) q h
  = (Raise IndexError, (h ++ [Prompt (KEYWORD_PROMPT q) 0.1])%list)
  /\ answer Json.loads
       (Fixtures.scripted [Returned Fixtures.decision_fenced]
          (Returned Fixtures.keywords_fenced_on_one_line) (Returned [Fixtures.one_result]))
       q true []
     = (Raise IndexError, [Prompt (DECISION_PROMPT q) 0.1; Prompt (KEYWORD_PROMPT q) 0.1]).
Proof.
  split.
  - apply extract_keywords_fence_error with (resp := Fixtures.keywords_fenced_on_one_line);
      [reflexivity | exact unfence_keywords_on_one_line].
  - set (ports := Fixtures.scripted [Returned Fixtures.decision_fenced]
                    (Returned Fixtures.keywords_fenced_on_one_line)
                    (Returned [Fixtures.one_result])).
    assert (Hd : _needs_web_search Json.loads ports q []
                 = (Ok (PBool true, PStr "recent news"), [Prompt (DECISION_PROMPT q) 0.1])).
    { pose proof (needs_web_search_object Json.loads ports q []
                    Fixtures.decision_fenced (Fixtures.decision_yes ++ nl)
                    [("needs_search", PBool true); ("reason", PStr "recent news")]
                    eq_refl unfence_decision_fenced eq_refl) as Hf.
      pose proof (needs_web_search_calls Json.loads ports q []) as Hc.
      destruct (_needs_web_search Json.loads ports q []) as [o h1].
      simpl in Hf, Hc. now subst. }
    assert (Hk : _extract_keywords Json.loads ports q [Prompt (DECISION_PROMPT q) 0.1]
                 = (Raise IndexError,
                    [Prompt (DECISION_PROMPT q) 0.1; Prompt (KEYWORD_PROMPT q) 0.1])).
    { apply (extract_keywords_fence_error Json.loads ports q
               [Prompt (DECISION_PROMPT q) 0.1]
               Fixtures.keywords_fenced_on_one_line eq_refl unfence_keywords_on_one_line). }
    rewrite answer_run, answer_try_run. simpl negb. cbv iota.
    rewrite Hd. simpl truthy. cbv iota. rewrite Hk. reflexivity.
Qed.

(** C10. When the response of the keyword call decodes to an object that
    has no "keywords", the keyword stage returns the question itself, as it
    does when the response is not JSON. *)
Theorem keywords_missing_gives_question
  (loads : string -> option pyval) (ports : Ports) (q : string) (h : history)
  (resp s : string) (d : list (string * pyval)) :
  llm_prompt ports h (KEYWORD_PROMPT q) 0.1 = Returned resp ->
  unfence resp = Ok s ->
  loads s = Some (PDict d) ->
  dict_lookup "keywords" d = None ->
  _extract_keywords loads ports q h
  = (Ok (PStr q), (h ++ [Prompt (KEYWORD_PROMPT q) 0.1])%list).
Proof.
  intros H Hu Hl Hk. unfold _extract_keywords, try_except, bind, llm, lift, json_loads.
  rewrite H; simpl. rewrite Hu; simpl. rewrite Hl; simpl. rewrite Hk. reflexivity.
Qed.

(** ** The search-result parser *)

Section Parser.

Variable loads : string -> option pyval.

(** One turn of the loop on an object: its record is appended when valid. *)
Lemma parse_item_object (d : list (string * pyval)) (acc : list SearchResult.t) :
  Scraper.parse_item (PDict d) acc
  = Ok (if Spec.valid (Spec.record_of d) then (acc ++ [Spec.record_of d])%list else acc).
Proof.
  unfold Scraper.parse_item, Spec.valid, Spec.record_of, py_or, and_then, py_get. simpl.
  destruct (truthy match dict_lookup "link" d with Some x => x | None => PNone end);
    destruct (truthy match dict_lookup "description" d with Some x => x | None => PNone end);
    reflexivity.
Qed.

(** An item that is no object stops the loop with [AttributeError]. *)
Lemma parse_item_other (v : pyval) (acc : list SearchResult.t) :
  (forall d, v <> PDict d) -> Scraper.parse_item v acc = Raise AttributeError.
Proof.
  intros Hv. destruct v; try reflexivity. now destruct (Hv kvs).
Qed.

(** The loop over objects keeps the valid records, in order, after those
    it started with. *)
Lemma parse_items_objects (ds : list (list (string * pyval))) :
  forall acc : list SearchResult.t,
    Scraper.parse_items (map PDict ds) acc
    = Ok (acc ++ filter Spec.valid (map Spec.record_of ds))%list.
Proof.
  induction ds as [|d ds IH]; intros acc; simpl.
  - now rewrite app_nil_r.
  - rewrite parse_item_object. simpl. rewrite IH.
    destruct (Spec.valid (Spec.record_of d)); [|reflexivity].
    now rewrite <- app_assoc.
Qed.

(** Whatever the items are, the loop adds valid records only. *)
Lemma parse_items_valid (items : list pyval) :
  forall acc rs : list SearchResult.t,
    Scraper.parse_items items acc = Ok rs ->
    Forall (fun r => Spec.valid r = true) acc ->
    Forall (fun r => Spec.valid r = true) rs.
Proof.
  induction items as [|v items IH]; intros acc rs; simpl.
  - intros E Hacc. now inversion E; subst.
  - destruct v; try discriminate.
    rewrite parse_item_object. simpl. intros E Hacc. apply (IH _ _ E).
    destruct (Spec.valid (Spec.record_of kvs)) eqn:Hv; [|exact Hacc].
    apply Forall_app. split; [exact Hacc | now constructor].
Qed.

(** For every payload on which the parser returns, every record it returns
    has a non-empty title and a non-empty URL. *)
Lemma parsed_records_are_valid (data : pyval) (rs : list SearchResult.t) :
  Scraper._parse_search_results loads data = Ok rs ->
  Forall (fun r => Spec.valid r = true) rs.
Proof.
  unfold Scraper._parse_search_results, and_then.
  destruct (py_get data "body" data) as [body|e]; [|discriminate].
  destruct (match body with PStr s => loads s | _ => Some body end) as [body'|].
  - destruct (py_get body' "organic" PNone) as [o|e]; [|discriminate].
    destruct (if truthy o then Ok o
              else match py_get body' "organic_results" PNone with
                   | Ok o' => Ok (py_or o' (PList []))
                   | Raise e => Raise e
                   end) as [organic|e]; [|discriminate].
    destruct (Scraper.iterate organic) as [items|e]; [|discriminate].
    intros E. exact (parse_items_valid items [] rs E (Forall_nil _)).
  - intros E. inversion E. constructor.
Qed.

(** A body that is text and does not decode gives no record. *)
Lemma undecodable_body_gives_nothing (data : list (string * pyval)) (s : string) :
  dict_lookup "body" data = Some (PStr s) -> loads s = None ->
  Scraper._parse_search_results loads (PDict data) = Ok [].
Proof.
  intros Hb Hl. unfold Scraper._parse_search_results, and_then. simpl py_get.
  rewrite Hb, Hl. reflexivity.
Qed.

(** C6. When a payload carries, under "body" or as itself, as a value or
    as JSON text, an object whose result list (under "organic", or under
    "organic_results") is a list of objects, the parser returns the records
    of the objects whose title and URL are both non-empty, in the order of
    the list, and nothing else. *)
Theorem parser_keeps_the_valid_records
  (data body : list (string * pyval)) (ds : list (list (string * pyval))) :
  Spec.body_of loads data = Some (PDict body) ->
  Spec.organic_of body = PList (map PDict ds) ->
  Scraper._parse_search_results loads (PDict data)
  = Ok (filter Spec.valid (map Spec.record_of ds))
  /\ Forall (fun r => truthy (SearchResult.title r) = true
                      /\ truthy (SearchResult.url r) = true)
            (filter Spec.valid (map Spec.record_of ds)).
Proof.
  intros Hbody Horg. split.
  - unfold Scraper._parse_search_results, and_then. simpl py_get. cbv iota beta.
    match goal with
    | |- match ?x with Some _ => _ | None => _ end = _ =>
        assert (Hb : x = Some (PDict body))
    end.
    { unfold Spec.body_of in Hbody.
      destruct (dict_lookup "body" data) as [[| | | | | |]|]; exact Hbody. }
    rewrite Hb. simpl py_get. cbv iota beta.
    match goal with
    | |- match ?x with Ok _ => _ | Raise _ => _ end = _ =>
        assert (Ho : x = Ok (PList (map PDict ds)))
    end.
    { rewrite <- Horg. unfold Spec.organic_of.
      destruct (dict_lookup "organic" body) as [v|].
      - destruct (truthy v); [reflexivity|].
        destruct (dict_lookup "organic_results" body); reflexivity.
      - simpl. destruct (dict_lookup "organic_results" body); reflexivity. }
    rewrite Ho. simpl. apply (parse_items_objects ds []).
  - apply Forall_forall. intros r Hr. apply filter_In in Hr. destruct Hr as [_ Hv].
    unfold Spec.valid in Hv. now apply andb_true_iff in Hv.
Qed.

End Parser.

(** ** The prompt of the search-augmented synthesis *)

Lemma format_result_block (n : nat) (r : SearchResult.t) (acc : string) :
  format_result (Z.of_nat n) r acc = acc ++ Spec.numbered_block n r.
Proof.
  unfold format_result, Spec.numbered_block.
  now rewrite !app_string_assoc.
Qed.

(** The loop of [_answer_with_results] appends the numbered blocks. *)
Lemma format_results_blocks (rs : list SearchResult.t) :
  forall (n : nat) (acc : string),
    format_results (Z.of_nat n) rs acc = acc ++ Spec.numbered_blocks n rs.
Proof.
  induction rs as [|r rs IH]; intros n acc; simpl.
  - now rewrite app_nil_end.
  - replace (Z.of_nat n + 1) with (Z.of_nat (S n)) by lia.
    rewrite IH, format_result_block. now rewrite app_string_assoc.
Qed.

(** The blocks of a list are those before a position, the block of that
    position, and those after it. *)
Lemma numbered_blocks_at (rs : list SearchResult.t) :
  forall (k first : nat) (r : SearchResult.t),
    nth_error rs k = Some r ->
    Spec.numbered_blocks first rs
    = Spec.numbered_blocks first (firstn k rs)
        ++ Spec.numbered_block (first + k) r
        ++ Spec.numbered_blocks (S (first + k)) (skipn (S k) rs).
Proof.
  induction rs as [|x rs IH]; intros [|k] first r E; try discriminate;
    cbn [nth_error] in E; cbn [firstn skipn Spec.numbered_blocks].
  - inversion E; subst. now rewrite Nat.add_0_r.
  - rewrite (IH k (S first) r E). rewrite app_string_assoc.
    now replace (first + S k)%nat with (S first + k)%nat by lia.
Qed.

(** The filled template is the text before the results, the results, and
    the text after them. *)
Lemma results_prompt_layout (q formatted_results : string) :
  ANSWER_WITH_SEARCH_PROMPT q formatted_results
  = Layout.results_head q ++ formatted_results ++ Layout.results_tail.
Proof.
  unfold ANSWER_WITH_SEARCH_PROMPT, Layout.results_head, Layout.results_tail.
  cbn [join]. rewrite !app_string_assoc. reflexivity.
Qed.

(** C7. The prompt sent by the search-augmented synthesis call is this
    text: the opening of the template with the question, then the numbered
    blocks of the results in input order, then the instructions.  So for
    the result at position k (from 0) the prompt reads: everything up to
    the blocks of the k results before it, then its own block, numbered
    k+1 and made of the lines "k+1. title", "   URL: url" and
    "   description", then the blocks of the results after it and the
    instructions. *)
Theorem results_prompt_numbers_every_result
  (ports : Ports) (q : string) (rs : list SearchResult.t) (h : history) :
  exists p : string,
    snd (_answer_with_results ports q rs h) = (h ++ [Prompt p 0.7])%list
    /\ p = Layout.results_head q ++ Spec.numbered_blocks 1 rs ++ Layout.results_tail
    /\ forall (k : nat) (r : SearchResult.t),
         nth_error rs k = Some r ->
         exists before after : string,
           p = before
                 ++ (nl ++ str_of_int (Z.of_nat (S k)) ++ ". "
                        ++ py_str (SearchResult.title r) ++ nl
                        ++ "   URL: " ++ py_str (SearchResult.url r) ++ nl
                        ++ "   " ++ py_str (SearchResult.description r) ++ nl)
                 ++ after
           /\ before = Layout.results_head q ++ Spec.numbered_blocks 1 (firstn k rs)
           /\ after = Spec.numbered_blocks (S (S k)) (skipn (S k) rs)
                        ++ Layout.results_tail.
Proof.
  exists (Layout.results_head q ++ Spec.numbered_blocks 1 rs ++ Layout.results_tail).
  split; [|split; [reflexivity|]].
  - rewrite answer_with_results_run. cbn [snd].
    pose proof (format_results_blocks rs 1 "") as E.
    change (Z.of_nat 1) with 1 in E. rewrite E. cbn [append].
    now rewrite results_prompt_layout.
  - intros k r E.
    exists (Layout.results_head q ++ Spec.numbered_blocks 1 (firstn k rs)).
    exists (Spec.numbered_blocks (S (S k)) (skipn (S k) rs) ++ Layout.results_tail).
    split; [|split; reflexivity].
    rewrite (numbered_blocks_at rs k 1 r E). fold (Spec.numbered_block (S k) r).
    change (1 + k)%nat with (S k).
    now rewrite !app_string_assoc.
Qed.

(** ** The theorems at concrete runs *)

(** The example of C6: of the two organic items, the one with the empty
    title is dropped and the other is returned, its link as url and its
    snippet as description. *)
Lemma parser_keeps_the_valid_records_witness :
  Scraper._parse_search_results Json.loads (PDict Fixtures.organic_payload)
  = Ok [SearchResult.make (PStr "A") (PStr "http://y") (PStr "d")]
  /\ Forall (fun r => truthy (SearchResult.title r) = true
                      /\ truthy (SearchResult.url r) = true)
            [SearchResult.make (PStr "A") (PStr "http://y") (PStr "d")].
Proof.
  exact (parser_keeps_the_valid_records Json.loads Fixtures.organic_payload
           Fixtures.organic_payload Fixtures.organic_items eq_refl eq_refl).
Defined.

(** The record of that example as [search_as_dict] hands it on. *)
Example organic_example_as_dict :
  SearchResult.to_dict (SearchResult.make (PStr "A") (PStr "http://y") (PStr "d"))
  = PDict [("title", PStr "A"); ("url", PStr "http://y"); ("description", PStr "d")].
Proof. reflexivity. Qed.

(** A search that found one result, and a synthesis call that timed out. *)
Lemma synthesis_failure_is_answered_witness :
  let ports := Fixtures.searching (Failed "Request timed out" None)
                 (Returned [Fixtures.one_result]) in
  exists r0,
    answer_try Json.loads ports Fixtures.question true (Steps.initial Fixtures.question, [])
    = (Raise (LLMError "Request timed out" None),
       (r0, (Fixtures.calls_to_search ++ [Prompt Fixtures.results_prompt 0.7])%list))
    /\ answer Json.loads ports Fixtures.question true []
       = (Ok (AnswerResult.make Fixtures.question (Spec.error_answer "Request timed out")
                (AnswerResult.used_search r0) (AnswerResult.search_results r0)
                (AnswerResult.reason r0)),
          (Fixtures.calls_to_search ++ [Prompt Fixtures.results_prompt 0.7])%list)
    /\ AnswerResult.question r0 = Fixtures.question
    /\ Spec.error_answer "Request timed out" <> ""
    /\ (Fixtures.results_prompt = ANSWER_DIRECT_PROMPT Fixtures.question
        \/ exists rs,
             rs <> []
             /\ Fixtures.results_prompt
                = ANSWER_WITH_SEARCH_PROMPT Fixtures.question (format_results 1 rs "")).
Proof.
  apply (synthesis_failure_is_answered Json.loads
           (Fixtures.searching (Failed "Request timed out" None)
              (Returned [Fixtures.one_result]))
           Fixtures.question true [] Fixtures.calls_to_search
           Fixtures.results_prompt "Request timed out" None); reflexivity.
Defined.

(** A run that searched, found one result and answered from it. *)
Lemma used_search_iff_search_attempted_witness :
  exists calls,
    Fixtures.calls_to_synthesis = ([] ++ calls)%list
    /\ (AnswerResult.search_results Fixtures.answered <> [] ->
        AnswerResult.used_search Fixtures.answered = true)
    /\ (AnswerResult.used_search Fixtures.answered = true
        <-> existsb Spec.is_search calls = true)
    /\ (true = false -> AnswerResult.used_search Fixtures.answered = false).
Proof.
  exact (used_search_iff_search_attempted Json.loads
           (Fixtures.searching (Returned "Rocq 9.1 is out.") (Returned [Fixtures.one_result]))
           Fixtures.question true [] Fixtures.calls_to_synthesis Fixtures.answered eq_refl).
Defined.


(** A keyword reply that is an object without "keywords". *)
Lemma keywords_missing_gives_question_witness :
  _extract_keywords Json.loads (Fixtures.always (Returned "{}") (Returned []))
    Fixtures.question []
  = (Ok (PStr Fixtures.question), [Prompt (KEYWORD_PROMPT Fixtures.question) 0.1]).
Proof.
  exact (keywords_missing_gives_question Json.loads
           (Fixtures.always (Returned "{}") (Returned []))
           Fixtures.question [] "{}" "{}" [] eq_refl eq_refl eq_refl eq_refl).
Defined.

(** C9, as stated, fails: the decision stage decides, from an object that
    has no "reason", and [answer] returns a result whose reason is the empty
    string. *)
Lemma reason_can_be_empty :
  let ports := Fixtures.scripted [Returned (Fixtures.object1 "needs_search" "false")]
                 (Returned "4") (Returned []) in
  _needs_web_search Json.loads ports "What is 2 + 2?" []
  = (Ok (PBool false, PStr ""), [Prompt (DECISION_PROMPT "What is 2 + 2?") 0.1])
  /\ answer Json.loads ports "What is 2 + 2?" true []
     = (Ok (AnswerResult.make "What is 2 + 2?" "4" false [] (PStr "")),
        [Prompt (DECISION_PROMPT "What is 2 + 2?") 0.1;
         Prompt (ANSWER_DIRECT_PROMPT "What is 2 + 2?") 0.7]).
Proof. split; reflexivity. Qed.

(** The run of the search that found one result: its reason is the one of
    the decoded object. *)
Lemma reason_is_the_routing_explanation_witness :
  let ports := Fixtures.searching (Returned "Rocq 9.1 is out.")
                 (Returned [Fixtures.one_result]) in
  (true = false /\ AnswerResult.reason Fixtures.answered = PStr "Web search disabled")
  \/ (true = true
      /\ ((exists m c,
             llm_prompt ports [] (DECISION_PROMPT Fixtures.question) 0.1 = Failed m c)
          \/ (exists resp s,
                llm_prompt ports [] (DECISION_PROMPT Fixtures.question) 0.1 = Returned resp
                /\ unfence resp = Ok s /\ Json.loads s = None))
      /\ AnswerResult.reason Fixtures.answered
         = PStr "Failed to determine, using direct answer")
  \/ (true = true
      /\ exists resp s d,
           llm_prompt ports [] (DECISION_PROMPT Fixtures.question) 0.1 = Returned resp
           /\ unfence resp = Ok s /\ Json.loads s = Some (PDict d)
           /\ AnswerResult.reason Fixtures.answered
              = match dict_lookup "reason" d with Some v => v | None => PStr "" end).
Proof.
  exact (reason_is_the_routing_explanation Json.loads
           (Fixtures.searching (Returned "Rocq 9.1 is out.") (Returned [Fixtures.one_result]))
           Fixtures.question true [] Fixtures.calls_to_synthesis Fixtures.answered eq_refl).
Defined.

(** ** The branch that found results, end to end *)

(** When the search port returns results, [answer] returns them with
    used_search true, and its last call is the synthesis over their
    numbered blocks. *)
Lemma found_results_reach_the_prompt
  (loads : string -> option pyval) (ports : Ports) (q : string)
  (h h1 h2 : history) (ns rsn kw : pyval) (rs : list SearchResult.t) :
  _needs_web_search loads ports q h = (Ok (ns, rsn), h1) ->
  truthy ns = true ->
  _extract_keywords loads ports q h1 = (Ok kw, h2) ->
  scraper_search_as_dict ports h2 kw 5 = Returned rs ->
  rs <> [] ->
  let p := ANSWER_WITH_SEARCH_PROMPT q (Spec.numbered_blocks 1 rs) in
  answer loads ports q true h
  = (Ok (AnswerResult.make q
           (Spec.answer_of (llm_prompt ports (h2 ++ [Search kw 5])%list p 0.7))
           true rs rsn),
     (h2 ++ [Search kw 5; Prompt p 0.7])%list).
Proof.
  intros Hd Hns Hk Hs Hrs p. subst p.
  rewrite answer_run, answer_try_run. simpl negb. cbv iota.
  rewrite Hd, Hns, Hk, Hs. cbv zeta.
  destruct rs as [|r rs]; [now destruct Hrs|].
  rewrite settle_synthesis.
  pose proof (format_results_blocks (r :: rs) 1 "") as E.
  change (Z.of_nat 1) with 1 in E. rewrite E.
  rewrite <- app_assoc. reflexivity.
Qed.

(** ** The decoder of the concrete runs, on a few texts *)

Example loads_object :
  Json.loads Fixtures.decision_yes
  = Some (PDict [("needs_search", PBool true); ("reason", PStr "recent news")]).
Proof. reflexivity. Qed.

Example loads_nested :
  Json.loads "[1, -20, null, [true, false], {}]"
  = Some (PList [PInt 1; PInt (-20); PNone; PList [PBool true; PBool false]; PDict []]).
Proof. reflexivity. Qed.

Example loads_rejects_fence : Json.loads Fixtures.decision_fenced_on_one_line = None.
Proof. reflexivity. Qed.

Example loads_rejects_trailing_comma : Json.loads "[1,]" = None.
Proof. reflexivity. Qed.

(** * The rest of the code *)

(** ** Stripping and cutting text *)

Lemma prefix_char (c a : ascii) (s : string) :
  prefix (String c EmptyString) (String a s) = Ascii.eqb a c.
Proof.
  simpl. destruct (ascii_dec c a) as [->|Hn].
  - rewrite Ascii.eqb_refl. now destruct s.
  - symmetry. apply Ascii.eqb_neq. congruence.
Qed.

Lemma cut_first_char_none (c : ascii) (s : string) :
  cut_first (String c EmptyString) s = None <-> contains_char c s = false.
Proof.
  induction s as [|a s IH].
  - simpl. tauto.
  - cbn [cut_first contains_char]. rewrite prefix_char.
    destruct (Ascii.eqb a c); simpl.
    + split; discriminate.
    + destruct (cut_first (String c EmptyString) s) as [[x y]|].
      * split; [discriminate|]. intros H. apply IH in H. discriminate.
      * split; intros _; [now apply IH | reflexivity].
Qed.

Lemma cut_first_char_at (c : ascii) (a b : string) :
  contains_char c a = false ->
  cut_first (String c EmptyString) (a ++ String c b) = Some (a, b).
Proof.
  induction a as [|x a IH]; intros H.
  - cbn [append cut_first]. rewrite prefix_char, Ascii.eqb_refl. reflexivity.
  - cbn [contains_char] in H. apply orb_false_iff in H. destruct H as [Hx Ha].
    cbn [append cut_first]. rewrite prefix_char, Hx, (IH Ha). reflexivity.
Qed.

(** The last fence of a text that ends with one is that one. *)
Lemma cut_last_closing_fence (body : string) :
  cut_last "```" (body ++ "```") = Some (body, EmptyString).
Proof.
  induction body as [|c body IH]; [reflexivity|].
  cbn [append cut_last]. now rewrite IH.
Qed.

Lemma contains_char_app (c : ascii) (a b : string) :
  contains_char c (a ++ b) = contains_char c a || contains_char c b.
Proof.
  induction a as [|x a IH]; simpl; [reflexivity|]. now rewrite IH, orb_assoc.
Qed.

Lemma lstrip_blank_app (pre s : string) :
  Words.blank pre = true -> lstrip (pre ++ s) = lstrip s.
Proof.
  induction pre as [|c pre IH]; simpl; [reflexivity|].
  intros H. apply andb_true_iff in H. destruct H as [Hc Hp]. now rewrite Hc, IH.
Qed.

Lemma rstrip_blank (s : string) : Words.blank s = true <-> rstrip s = EmptyString.
Proof.
  induction s as [|c s IH]; simpl; [tauto|].
  destruct (rstrip s) as [|x r].
  - destruct (is_space c); simpl.
    + split; [reflexivity | intros _; now apply IH].
    + split; discriminate.
  - split; [|discriminate]. intros H. apply andb_true_iff in H.
    destruct H as [_ H]. apply IH in H. discriminate.
Qed.

Lemma rstrip_app (a b : string) :
  rstrip b <> EmptyString -> rstrip (a ++ b) = a ++ rstrip b.
Proof.
  intros Hb. induction a as [|c a IH]; [reflexivity|].
  cbn [append rstrip]. rewrite IH.
  destruct (a ++ rstrip b) as [|x r] eqn:E; [|reflexivity].
  destruct a; simpl in E; [contradiction | discriminate].
Qed.

Lemma rstrip_idempotent (s : string) : rstrip (rstrip s) = rstrip s.
Proof.
  induction s as [|c s IH]; [reflexivity|].
  cbn [rstrip]. destruct (rstrip s) as [|x r] eqn:E.
  - destruct (is_space c) eqn:Hc; [reflexivity|]. cbn [rstrip]. now rewrite Hc.
  - cbn [rstrip] in *. rewrite IH. reflexivity.
Qed.

Lemma lstrip_head_kept (s : string) : Words.head_kept (lstrip s).
Proof.
  induction s as [|c s IH]; simpl; [exact I|].
  destruct (is_space c) eqn:Hc; [exact IH | exact Hc].
Qed.

Lemma lstrip_of_head_kept (s : string) : Words.head_kept s -> lstrip s = s.
Proof. destruct s as [|c s]; simpl; [reflexivity|]. now intros ->. Qed.

Lemma rstrip_head_kept (s : string) : Words.head_kept s -> Words.head_kept (rstrip s).
Proof.
  destruct s as [|c s]; simpl; [trivial|]. intros Hc.
  destruct (rstrip s); [rewrite Hc|]; exact Hc.
Qed.

Lemma strip_idempotent (s : string) : strip (strip s) = strip s.
Proof.
  unfold strip.
  rewrite (lstrip_of_head_kept (rstrip (lstrip s))).
  - apply rstrip_idempotent.
  - apply rstrip_head_kept, lstrip_head_kept.
Qed.

Lemma lstrip_blank (s : string) : Words.blank (lstrip s) = true -> Words.blank s = true.
Proof.
  induction s as [|c s IH]; simpl; [trivial|].
  destruct (is_space c) eqn:Hc; simpl; [exact IH|].
  rewrite Hc. discriminate.
Qed.

(** [strip] gives the empty text on whitespace only, and only then. *)
Lemma strip_empty_iff (s : string) : strip s = EmptyString <-> Words.blank s = true.
Proof.
  unfold strip. rewrite <- rstrip_blank. split.
  - apply lstrip_blank.
  - intros H. rewrite <- (app_nil_end s), (lstrip_blank_app s EmptyString H). reflexivity.
Qed.

Lemma contains_char_lstrip (c : ascii) (s : string) :
  contains_char c s = false -> contains_char c (lstrip s) = false.
Proof.
  induction s as [|a s IH]; simpl; [trivial|].
  intros H. apply orb_false_iff in H. destruct H as [Ha Hs].
  destruct (is_space a); [now apply IH|]. simpl. now rewrite Ha, Hs.
Qed.

Lemma contains_char_rstrip (c : ascii) (s : string) :
  contains_char c s = false -> contains_char c (rstrip s) = false.
Proof.
  induction s as [|a s IH]; simpl; [trivial|].
  intros H. apply orb_false_iff in H. destruct H as [Ha Hs].
  specialize (IH Hs). destruct (rstrip s) as [|x r].
  - destruct (is_space a); simpl; [reflexivity | now rewrite Ha].
  - cbn [contains_char] in *. now rewrite Ha, IH.
Qed.

Lemma contains_char_strip (c : ascii) (s : string) :
  contains_char c s = false -> contains_char c (strip s) = false.
Proof. intros H. now apply contains_char_rstrip, contains_char_lstrip. Qed.

(** ** agent.py: the code fence (lines 85-87 and 110-112) *)

(** X1. A response that is a code fence over several lines (the fence, a
    tag without line break, a line break, a body, the fence), with any
    whitespace around it, is cut down to its body, whatever the body is. *)
Theorem unfence_gives_the_fenced_body (pre lang body post : string) :
  Words.blank pre = true ->
  Words.blank post = true ->
  contains_char (ascii_of_nat 10) lang = false ->
  unfence (pre ++ "```" ++ lang ++ nl ++ body ++ "```" ++ post) = Ok body.
Proof.
  intros Hpre Hpost Hlang.
  assert (Hstrip : strip (pre ++ "```" ++ lang ++ nl ++ body ++ "```" ++ post)
                   = "```" ++ lang ++ nl ++ body ++ "```").
  { unfold strip. rewrite (lstrip_blank_app _ _ Hpre).
    rewrite (lstrip_of_head_kept ("```" ++ lang ++ nl ++ body ++ "```" ++ post))
      by reflexivity.
    assert (Hend : rstrip ("```" ++ post) = "```").
    { apply rstrip_blank in Hpost. simpl. now rewrite Hpost. }
    replace ("```" ++ lang ++ nl ++ body ++ "```" ++ post)
      with (("```" ++ lang ++ nl ++ body) ++ "```" ++ post)
      by (now rewrite !app_string_assoc).
    rewrite rstrip_app by (rewrite Hend; discriminate).
    rewrite Hend. now rewrite !app_string_assoc. }
  unfold unfence. rewrite Hstrip.
  replace (startswith ("```" ++ lang ++ nl ++ body ++ "```") "```") with true
    by (now destruct lang).
  unfold split1.
  replace ("```" ++ lang ++ nl ++ body ++ "```")
    with (("```" ++ lang) ++ String (ascii_of_nat 10) (body ++ "```"))
    by (now rewrite !app_string_assoc).
  change nl with (String (ascii_of_nat 10) EmptyString).
  rewrite cut_first_char_at by (rewrite contains_char_app, Hlang; reflexivity).
  unfold item at 1. simpl nth_error. cbv beta iota. unfold and_then.
  unfold rsplit1. rewrite cut_last_closing_fence. reflexivity.
Qed.

(** X2. The fence removal raises [IndexError] exactly when the stripped
    response starts with a fence and has no line break. *)
Theorem unfence_raises_iff (response : string) :
  unfence response = Raise IndexError
  <-> startswith (strip response) "```" = true
      /\ contains_char (ascii_of_nat 10) (strip response) = false.
Proof.
  unfold unfence. destruct (startswith (strip response) "```").
  - unfold split1. change nl with (String (ascii_of_nat 10) EmptyString).
    pose proof (cut_first_char_none (ascii_of_nat 10) (strip response)) as Hn.
    destruct (cut_first (String (ascii_of_nat 10) EmptyString) (strip response))
      as [[a b]|].
    + unfold and_then. change (item [a; b] 1) with (@Ok string b). cbv beta iota.
      destruct (rsplit1_head b "```") as [x Hx]. rewrite Hx.
      split; [discriminate|].
      intros [_ H]. apply Hn in H. discriminate.
    + split; [|reflexivity].
      intros _. split; [reflexivity | now apply Hn].
  - split; [discriminate | intros [H _]; discriminate].
Qed.

(** ** agent.py: [answer], the runs the claims leave out *)

Section Runs.

Variable loads : string -> option pyval.
Variable ports : Ports.

(** What leaves [answer] when the ports and the decoder keep to their
    contract (text or [LLMError], results or [ScraperError], a value or
    [JSONDecodeError]): the [IndexError] and the [AttributeError] of the
    decision and keyword stages. *)
Lemma answer_raises_from_its_stages
  (q : string) (use : bool) (h h' : history) (e : exn) :
  answer loads ports q use h = (Raise e, h') ->
  e = IndexError \/ e = AttributeError.
Proof.
  rewrite answer_run, answer_try_run.
  destruct use; simpl.
  - pose proof (needs_web_search_raises loads ports q h) as Hr.
    destruct (_needs_web_search loads ports q h) as [[[ns rsn]|e0] h1]; simpl in Hr.
    + destruct (truthy ns).
      * pose proof (extract_keywords_raises loads ports q h1) as Hr2.
        destruct (_extract_keywords loads ports q h1) as [[kw|e0] h2]; simpl in Hr2.
        -- rewrite settle_synthesis. discriminate.
        -- rewrite settle_raised by auto. intros E; inversion E; subst. auto.
      * rewrite settle_synthesis. discriminate.
    + rewrite settle_raised by auto. intros E; inversion E; subst. auto.
  - rewrite settle_synthesis. discriminate.
Qed.

(** X3. No classified port error leaves [answer]: whatever the completion
    port and the search port fail with, and on whatever call, an exception
    that leaves [answer] is neither an [LLMError] (caught at line 217 and
    turned into the answer) nor a [ScraperError] (caught by the search
    stage and turned into no results). *)
Theorem answer_lets_no_port_error_out
  (q : string) (use : bool) (h h' : history) (e : exn) :
  answer loads ports q use h = (Raise e, h') ->
  (forall m c, e <> LLMError m c) /\ (forall m c, e <> ScraperError m c).
Proof.
  intros E. destruct (answer_raises_from_its_stages q use h h' e E) as [-> | ->];
    split; intros m c; discriminate.
Qed.

(** X4. Whatever the ports reply, a run of [answer] adds at most three
    completion calls and at most one search call to the history, and
    exactly one call when search is disabled: no stage is tried twice. *)
Theorem answer_call_budget (q : string) (use : bool) (h : history) :
  exists calls,
    snd (answer loads ports q use h) = (h ++ calls)%list
    /\ (List.length (Words.completions calls) <= 3)%nat
    /\ (List.length (Words.searches calls) <= 1)%nat
    /\ (use = false -> List.length calls = 1%nat).
Proof.
  rewrite answer_run, answer_try_run.
  destruct use; simpl.
  - pose proof (needs_web_search_calls loads ports q h) as Hc.
    pose proof (needs_web_search_raises loads ports q h) as Hr.
    destruct (_needs_web_search loads ports q h) as [[[ns rsn]|e0] h1]; simpl in Hc, Hr.
    + destruct (truthy ns).
      * pose proof (extract_keywords_calls loads ports q h1) as Hc2.
        pose proof (extract_keywords_raises loads ports q h1) as Hr2.
        destruct (_extract_keywords loads ports q h1) as [[kw|e0] h2]; simpl in Hc2, Hr2.
        -- rewrite settle_synthesis. simpl. subst h2 h1.
           eexists [_; _; _; _]. rewrite <- !app_assoc. simpl.
           split; [reflexivity|]. simpl. repeat split; try lia; discriminate.
        -- rewrite settle_raised by auto. simpl. subst h2 h1.
           eexists [_; _]. rewrite <- !app_assoc. simpl.
           split; [reflexivity|]. simpl. repeat split; try lia; discriminate.
      * rewrite settle_synthesis. simpl. subst h1.
        eexists [_; _]. rewrite <- !app_assoc. simpl.
        split; [reflexivity|]. simpl. repeat split; try lia; discriminate.
    + rewrite settle_raised by auto. simpl. subst h1.
      eexists [_]. split; [reflexivity|]. simpl. repeat split; try lia; discriminate.
  - rewrite settle_synthesis. simpl.
    eexists [_]. split; [reflexivity|]. simpl. repeat split; lia.
Qed.



(** X7. Every result [answer] returns holds the question as it was given,
    and as answer the reply of the run's last call, which is a synthesis
    call (temperature 0.7): its text, or the error text of its failure. *)
Theorem returned_answer_is_the_last_reply
  (q : string) (use : bool) (h h' : history) (r : AnswerResult.t) :
  answer loads ports q use h = (Ok r, h') ->
  exists h0 p,
    h' = (h0 ++ [Prompt p 0.7])%list
    /\ AnswerResult.question r = q
    /\ AnswerResult.answer r = Spec.answer_of (llm_prompt ports h0 p 0.7).
Proof.
  rewrite answer_run, answer_try_run.
  destruct use; simpl.
  - pose proof (needs_web_search_raises loads ports q h) as Hr.
    destruct (_needs_web_search loads ports q h) as [[[ns rsn]|e0] h1]; simpl in Hr.
    + destruct (truthy ns).
      * pose proof (extract_keywords_raises loads ports q h1) as Hr2.
        destruct (_extract_keywords loads ports q h1) as [[kw|e0] h2]; simpl in Hr2.
        -- rewrite settle_synthesis. intros E; inversion E; subst; clear E.
           eexists; eexists. repeat split.
        -- rewrite settle_raised by auto. discriminate.
      * rewrite settle_synthesis. intros E; inversion E; subst; clear E.
        eexists; eexists. repeat split.
    + rewrite settle_raised by auto. discriminate.
  - rewrite settle_synthesis. intros E; inversion E; subst; clear E.
    eexists; eexists. repeat split.
Qed.

(** X8. When the keyword reply decodes to an object with "keywords", the
    call that follows the keyword call is the call of the search port, with
    the value found there passed as it is and a count of 5; no other call
    of the search port follows it. *)
Theorem keywords_go_to_the_search_verbatim
  (q : string) (h h1 : history) (ns rsn v : pyval)
  (resp s : string) (d : list (string * pyval)) :
  _needs_web_search loads ports q h = (Ok (ns, rsn), h1) ->
  truthy ns = true ->
  llm_prompt ports h1 (KEYWORD_PROMPT q) 0.1 = Returned resp ->
  unfence resp = Ok s ->
  loads s = Some (PDict d) ->
  dict_lookup "keywords" d = Some v ->
  exists rest,
    snd (answer loads ports q true h)
    = (h1 ++ [Prompt (KEYWORD_PROMPT q) 0.1; Search v 5] ++ rest)%list
    /\ existsb Spec.is_search rest = false.
Proof.
  intros Hd Hns Hp Hu Hl Hk.
  assert (Hkw : _extract_keywords loads ports q h1
                = (Ok v, (h1 ++ [Prompt (KEYWORD_PROMPT q) 0.1])%list)).
  { unfold _extract_keywords, try_except, bind, llm, lift, json_loads.
    rewrite Hp; simpl. rewrite Hu; simpl. rewrite Hl; simpl. rewrite Hk. reflexivity. }
  rewrite answer_run, answer_try_run. simpl negb. cbv iota.
  rewrite Hd, Hns, Hkw. cbv zeta. rewrite settle_synthesis. simpl snd.
  eexists [_]. split.
  - rewrite <- !app_assoc. reflexivity.
  - reflexivity.
Qed.

End Runs.

(** ** scraper.py: the parser's errors, and [to_dict] *)

Section ParserEdges.

Variable loads : string -> option pyval.

Lemma parse_item_raises (v : pyval) (acc : list SearchResult.t) (e : exn) :
  Scraper.parse_item v acc = Raise e -> e = AttributeError.
Proof.
  destruct v; try (intros E; now inversion E).
  rewrite parse_item_object. discriminate.
Qed.

Lemma parse_items_raises (items : list pyval) :
  forall (acc : list SearchResult.t) (e : exn),
    Scraper.parse_items items acc = Raise e -> e = AttributeError.
Proof.
  induction items as [|v items IH]; intros acc e; simpl; [discriminate|].
  destruct (Scraper.parse_item v acc) as [acc'|e'] eqn:E; simpl.
  - apply IH.
  - intros E'. inversion E'; subst. exact (parse_item_raises _ _ _ E).
Qed.

(** The loop stops at the first item that is no object. *)
Lemma parse_items_stops (items : list pyval) :
  forall acc : list SearchResult.t,
    Exists (fun v => forall d, v <> PDict d) items ->
    Scraper.parse_items items acc = Raise AttributeError.
Proof.
  induction items as [|v items IH]; intros acc Hex; [inversion Hex|].
  simpl. destruct v;
    try (rewrite parse_item_other by discriminate; reflexivity).
  rewrite parse_item_object. simpl. apply IH.
  inversion Hex as [? ? Hv|? ? Ht]; subst; [now destruct (Hv kvs) | exact Ht].
Qed.

(** The parser from the body on. *)
Lemma parse_from_body (data body : list (string * pyval)) :
  Spec.body_of loads data = Some (PDict body) ->
  Scraper._parse_search_results loads (PDict data)
  = (items <- Scraper.iterate (Spec.organic_of body) ;; Scraper.parse_items items [])%out.
Proof.
  intros Hbody.
  unfold Scraper._parse_search_results, and_then. simpl py_get. cbv iota beta.
  match goal with
  | |- match ?x with Some _ => _ | None => _ end = _ =>
      assert (Hb : x = Some (PDict body))
  end.
  { unfold Spec.body_of in Hbody.
    destruct (dict_lookup "body" data) as [[| | | | | |]|]; exact Hbody. }
  rewrite Hb. simpl py_get. cbv iota beta.
  match goal with
  | |- match ?x with Ok _ => _ | Raise _ => _ end = _ =>
      assert (Ho : x = Ok (Spec.organic_of body))
  end.
  { unfold Spec.organic_of.
    destruct (dict_lookup "organic" body) as [v|].
    - destruct (truthy v); [reflexivity|].
      destruct (dict_lookup "organic_results" body); reflexivity.
    - simpl. destruct (dict_lookup "organic_results" body); reflexivity. }
  rewrite Ho. reflexivity.
Qed.

(** The exceptions of the parser's own code, [loads] giving a value or
    [JSONDecodeError]: [AttributeError] and [TypeError]. *)
Lemma parser_exceptions (data : pyval) (e : exn) :
  Scraper._parse_search_results loads data = Raise e ->
  e = AttributeError \/ e = TypeError.
Proof.
  unfold Scraper._parse_search_results, and_then.
  destruct data; try (intros E; inversion E; now left).
  simpl py_get. cbv iota beta.
  destruct (match match dict_lookup "body" kvs with
                  | Some x => x
                  | None => PDict kvs
                  end with
            | PStr s => loads s
            | _ => Some match dict_lookup "body" kvs with
                        | Some x => x
                        | None => PDict kvs
                        end
            end) as [body|]; [|discriminate].
  destruct body; try (intros E; inversion E; now left).
  simpl py_get. cbv iota beta.
  destruct (if truthy match dict_lookup "organic" kvs0 with
                     | Some x => x
                     | None => PNone
                     end
            then Ok match dict_lookup "organic" kvs0 with
                    | Some x => x
                    | None => PNone
                    end
            else Ok (py_or match dict_lookup "organic_results" kvs0 with
                           | Some x => x
                           | None => PNone
                           end (PList []))) as [organic|e0] eqn:Ho.
  - destruct (Scraper.iterate organic) as [items|e1] eqn:Hi.
    + intros E. left. exact (parse_items_raises items [] e E).
    + intros E. inversion E; subst. right.
      destruct organic; simpl in Hi; try discriminate; now inversion Hi.
  - destruct (truthy _) in Ho; discriminate.
Qed.

(** X9. The parser lets no [JSONDecodeError] out and raises no
    [ScraperError]: the [JSONDecodeError] of a "body" text is caught at
    line 59 and gives no records, so an exception that leaves the parser is
    neither of the two. *)
Theorem parser_lets_no_decode_error_out (data : pyval) (e : exn) :
  Scraper._parse_search_results loads data = Raise e ->
  e <> JSONDecodeError /\ forall m c, e <> ScraperError m c.
Proof.
  intros E. pose proof (parser_exceptions data e E) as H.
  split; [|intros m c]; destruct H as [-> | ->]; discriminate.
Qed.

(** X10. One item of the result list that is no object loses the whole
    list: the parser raises [AttributeError], also when valid records come
    before that item. *)
Theorem parser_stops_at_an_item_that_is_no_object
  (data body : list (string * pyval)) (items : list pyval) :
  Spec.body_of loads data = Some (PDict body) ->
  Spec.organic_of body = PList items ->
  Exists (fun v => forall d, v <> PDict d) items ->
  Scraper._parse_search_results loads (PDict data) = Raise AttributeError.
Proof.
  intros Hbody Horg Hex. rewrite (parse_from_body data body Hbody), Horg. simpl.
  exact (parse_items_stops items [] Hex).
Qed.

Lemma record_of_to_dict (r : SearchResult.t) :
  Words.stable r ->
  Spec.record_of [("title", SearchResult.title r); ("url", SearchResult.url r);
                  ("description", SearchResult.description r)] = r.
Proof.
  intros [_ Hd]. destruct r as [t u d]. unfold Spec.record_of, py_or. simpl in *.
  destruct Hd as [Hd | ->]; [now rewrite Hd | reflexivity].
Qed.

(** X11. The dictionaries [to_dict] makes are read back by the parser: a
    payload whose "organic" is the list of the dictionaries of valid
    records (with a description that is non-empty or the empty text) parses
    to those records, in order. *)
Theorem parser_reads_back_to_dict (rs : list SearchResult.t) :
  Forall Words.stable rs ->
  Scraper._parse_search_results loads
    (PDict [("organic", PList (map SearchResult.to_dict rs))])
  = Ok rs.
Proof.
  intros Hrs.
  rewrite (parse_from_body [("organic", PList (map SearchResult.to_dict rs))]
             [("organic", PList (map SearchResult.to_dict rs))] eq_refl).
  assert (Ho : Scraper.iterate
                 (Spec.organic_of [("organic", PList (map SearchResult.to_dict rs))])
               = Ok (map SearchResult.to_dict rs)).
  { unfold Spec.organic_of. simpl. destruct rs; reflexivity. }
  rewrite Ho. simpl and_then.
  replace (map SearchResult.to_dict rs)
    with (map PDict (map (fun r => [("title", SearchResult.title r);
                                    ("url", SearchResult.url r);
                                    ("description", SearchResult.description r)]) rs))
    by (rewrite map_map; reflexivity).
  rewrite parse_items_objects. cbn [app]. f_equal. clear Ho.
  induction Hrs as [|r rs Hr Hrs IH]; [reflexivity|].
  cbn [map]. rewrite (record_of_to_dict r Hr). cbn [filter].
  destruct Hr as [Hv _]. rewrite Hv. now rewrite IH.
Qed.

End ParserEdges.

(** ** scraper.py: [ScraperClient.search] *)

Section SearchClient.

Variable loads : string -> option pyval.
Variable quote_plus : string -> string.
Variable post : string -> list (string * string) -> ScraperClient.Payload -> Http.posted.
Variables api_token base_url : string.

Let search := ScraperClient.search loads quote_plus post api_token base_url.

(** X12. Whenever [search] raises [ScraperError], the query was text, one
    request went to the base URL for the Google URL of the encoded query
    and the count, and either the transport timed out or failed (no status
    code) or the response's status was not 200 (that status is the error's
    status code): a response with status 200 never gives a
    [ScraperError]. *)
Theorem search_scraper_error_has_a_cause
  (query : pyval) (num_results : Z) (m : string) (c : option Z) :
  search query num_results = Raise (ScraperError m c) ->
  exists q payload,
    query = PStr q
    /\ ScraperClient.url payload
       = "https://www.google.com/search?q=" ++ quote_plus q ++ "&num="
           ++ str_of_int num_results
    /\ match post base_url (ScraperClient._get_headers api_token) payload with
       | Http.TimedOut => m = "Request timed out" /\ c = None
       | Http.RequestFailed e => m = "Request failed: " ++ e /\ c = None
       | Http.Responded r =>
           Http.status_code r <> 200
           /\ c = Some (Http.status_code r)
           /\ m = "API request failed: " ++ py_str (ScraperClient.error_detail loads r)
       end.
Proof.
  unfold search, ScraperClient.search.
  destruct query as [| | | |q| |]; try discriminate.
  intros E. exists q.
  exists {| ScraperClient.zone := "serp_api1"; ScraperClient.format := "json";
            ScraperClient.data_format := "parsed_light";
            ScraperClient.url := "https://www.google.com/search?q=" ++ quote_plus q
                                   ++ "&num=" ++ str_of_int num_results |}.
  split; [reflexivity|]. split; [reflexivity|].
  cbv zeta in E.
  destruct (post base_url (ScraperClient._get_headers api_token) _) as [|e|r].
  - inversion E. auto.
  - inversion E. auto.
  - destruct (Http.status_code r =? 200)%Z eqn:Hs; simpl in E.
    + destruct (loads (Http.text r)) as [data|]; [|discriminate].
      destruct (parser_exceptions loads data _ E); discriminate.
    + inversion E. apply Z.eqb_neq in Hs. auto.
Qed.

(** X13. Whenever [search] returns, the query was text, the response had
    status 200, its text decoded, the records are those the parser makes of
    it, and each has a non-empty title and a non-empty URL. *)
Theorem search_returns_parsed_valid_records
  (query : pyval) (num_results : Z) (rs : list SearchResult.t) :
  search query num_results = Ok rs ->
  exists q payload r data,
    query = PStr q
    /\ post base_url (ScraperClient._get_headers api_token) payload = Http.Responded r
    /\ Http.status_code r = 200
    /\ loads (Http.text r) = Some data
    /\ Scraper._parse_search_results loads data = Ok rs
    /\ Forall (fun x => truthy (SearchResult.title x) = true
                        /\ truthy (SearchResult.url x) = true) rs.
Proof.
  unfold search, ScraperClient.search.
  destruct query as [| | | |q| |]; try discriminate.
  cbv zeta.
  destruct (post base_url (ScraperClient._get_headers api_token) _) as [|e|r] eqn:Hp;
    try discriminate.
  destruct (Http.status_code r =? 200)%Z eqn:Hs; simpl; [|discriminate].
  destruct (loads (Http.text r)) as [data|] eqn:Hl; [|discriminate].
  intros E. exists q. eexists. exists r, data.
  repeat split; try eassumption.
  - now apply Z.eqb_eq.
  - pose proof (parsed_records_are_valid loads data rs E) as Hv.
    apply Forall_forall. intros x Hx.
    rewrite Forall_forall in Hv. specialize (Hv x Hx).
    unfold Spec.valid in Hv. now apply andb_true_iff in Hv.
Qed.

End SearchClient.

(** ** llm.py: [LLMClient.prompt] and [chat] *)

Section CompletionClient.

Variable loads : string -> option pyval.
Variable post : string -> list (string * string) -> Llm.Payload -> Http.posted.
Variables api_token self_model base_url : string.

Let prompt := Llm.prompt loads post api_token self_model base_url.

Lemma then_value {A B : Type} (r : Llm.result A) (k : A -> Llm.result B) (b : B) :
  Llm.then_ r k = Llm.Value b -> exists a, r = Llm.Value a /\ k a = Llm.Value b.
Proof. destruct r; simpl; try discriminate. eauto. Qed.

Lemma getitem_value (v : pyval) (key : string) (x : pyval) :
  Llm.getitem v key = Llm.Value x -> exists d, v = PDict d /\ dict_lookup key d = Some x.
Proof.
  destruct v; simpl; try discriminate.
  destruct (dict_lookup key kvs) eqn:E; [|discriminate].
  intros H. inversion H; subst. eauto.
Qed.

(** What [chat] reads off a decoded response. *)
Lemma first_content_read (data c : pyval) :
  Llm.then_ (Llm.getitem data "choices") (fun choices =>
  Llm.then_ (Llm.getindex choices 0) (fun choice =>
  Llm.then_ (Llm.getitem choice "message") (fun message =>
  Llm.getitem message "content"))) = Llm.Value c ->
  Words.first_content data c.
Proof.
  intros H.
  apply then_value in H. destruct H as (choices & H1 & H).
  apply then_value in H. destruct H as (choice & H2 & H).
  apply then_value in H. destruct H as (message & H3 & H4).
  apply getitem_value in H1. destruct H1 as (d & -> & Hd).
  apply getitem_value in H3. destruct H3 as (dc & -> & Hc).
  apply getitem_value in H4. destruct H4 as (dm & -> & Hm).
  destruct choices; simpl in H2; try discriminate.
  - destruct (String.get 0 s); discriminate.
  - destruct xs as [|x rest]; simpl in H2; [discriminate|].
    inversion H2; subst. exists d, dc, rest, dm. auto.
Qed.

Lemma then_raised {A B : Type} (r : Llm.result A) (k : A -> Llm.result B) (e : exn) :
  Llm.then_ r k = Llm.Raised e ->
  r = Llm.Raised e \/ exists a, r = Llm.Value a /\ k a = Llm.Raised e.
Proof.
  destruct r as [a|e0|key]; simpl; intros H.
  - right. exists a. auto.
  - left. now inversion H.
  - discriminate.
Qed.

Lemma getitem_raised (v : pyval) (key : string) (e : exn) :
  Llm.getitem v key = Llm.Raised e -> e = TypeError.
Proof.
  destruct v; simpl; try (intros H; now inversion H).
  destruct (dict_lookup key kvs); discriminate.
Qed.

Lemma getindex_raised (v : pyval) (i : nat) (e : exn) :
  Llm.getindex v i = Llm.Raised e -> e = TypeError \/ e = IndexError.
Proof.
  destruct v; simpl; try (intros H; inversion H; now left); try discriminate.
  - destruct (String.get i s); [discriminate|]. intros H; inversion H; now right.
  - destruct (nth_error xs i); [discriminate|]. intros H; inversion H; now right.
Qed.

(** The subscripts of [chat] raise [TypeError], [IndexError] or
    [KeyError], nothing else. *)
Lemma first_content_raised (data : pyval) (e : exn) :
  Llm.then_ (Llm.getitem data "choices") (fun choices =>
  Llm.then_ (Llm.getindex choices 0) (fun choice =>
  Llm.then_ (Llm.getitem choice "message") (fun message =>
  Llm.getitem message "content"))) = Llm.Raised e ->
  e = TypeError \/ e = IndexError.
Proof.
  intros H.
  apply then_raised in H. destruct H as [H | (choices & _ & H)].
  { left. exact (getitem_raised _ _ _ H). }
  apply then_raised in H. destruct H as [H | (choice & _ & H)].
  { exact (getindex_raised _ _ _ H). }
  apply then_raised in H. destruct H as [H | (message & _ & H)].
  { left. exact (getitem_raised _ _ _ H). }
  left. exact (getitem_raised _ _ _ H).
Qed.

(** X14. Whenever [prompt] raises [LLMError], one request was posted,
    whose messages are the system prompt (when there is a non-empty one)
    and then the user prompt; and either the transport timed out or failed
    (no status code) or the response's status was not 200 (that status is
    the error's status code, and the message carries the "message" of the
    response's "error" object, or else the response's text): a response
    with status 200 never gives an [LLMError]. *)
Theorem prompt_llm_error_has_a_cause
  (p : string) (system_prompt model : option string) (temperature : Q)
  (max_tokens : option Z) (m : string) (c : option Z) :
  prompt p system_prompt model temperature max_tokens = Llm.Raised (LLMError m c) ->
  exists payload,
    Llm.messages payload
    = (match system_prompt with
       | Some s => if s =? "" then []
                   else [{| Llm.role := "system"; Llm.content := s |}]
       | None => []
       end ++ [{| Llm.role := "user"; Llm.content := p |}])%list
    /\ Llm.temperature payload = temperature
    /\ match post (base_url ++ "/v1/chat/completions") (Llm._get_headers api_token)
                payload with
       | Http.TimedOut => m = "Request timed out" /\ c = None
       | Http.RequestFailed e => m = "Request failed: " ++ e /\ c = None
       | Http.Responded r =>
           Http.status_code r <> 200
           /\ c = Some (Http.status_code r)
           /\ m = "API request failed: " ++ py_str (Llm.error_detail loads r)
       end.
Proof.
  unfold prompt, Llm.prompt, Llm.chat. cbv zeta. intros E.
  match type of E with context [post _ _ ?pl] => exists pl end.
  split; [destruct system_prompt as [s|]; [destruct (s =? "")|]; reflexivity|].
  split; [reflexivity|].
  destruct (post (base_url ++ "/v1/chat/completions") (Llm._get_headers api_token) _)
    as [|e|r].
  - inversion E. auto.
  - inversion E. auto.
  - destruct (Http.status_code r =? 200)%Z eqn:Hs; simpl in E.
    + exfalso. destruct (loads (Http.text r)) as [data|]; [|discriminate].
      destruct (first_content_raised data _ E); discriminate.
    + inversion E. apply Z.eqb_neq in Hs. auto.
Qed.

(** X15. Whenever [prompt] returns a value, the response had status 200,
    its text decoded, and the value is the "content" of the "message" of
    the first of its "choices", whatever kind of value that is. *)
Theorem prompt_returns_the_first_content
  (p : string) (system_prompt model : option string) (temperature : Q)
  (max_tokens : option Z) (v : pyval) :
  prompt p system_prompt model temperature max_tokens = Llm.Value v ->
  exists payload r data,
    Llm.messages payload
    = (match system_prompt with
       | Some s => if s =? "" then []
                   else [{| Llm.role := "system"; Llm.content := s |}]
       | None => []
       end ++ [{| Llm.role := "user"; Llm.content := p |}])%list
    /\ post (base_url ++ "/v1/chat/completions") (Llm._get_headers api_token) payload
       = Http.Responded r
    /\ Http.status_code r = 200
    /\ loads (Http.text r) = Some data
    /\ Words.first_content data v.
Proof.
  unfold prompt, Llm.prompt, Llm.chat. cbv zeta. intros E.
  match type of E with context [post _ _ ?pl] => exists pl end.
  destruct (post (base_url ++ "/v1/chat/completions") (Llm._get_headers api_token) _)
    as [|e|r] eqn:Hp; try discriminate.
  destruct (Http.status_code r =? 200)%Z eqn:Hs; simpl in E; [|discriminate].
  destruct (loads (Http.text r)) as [data|] eqn:Hl; [|discriminate].
  exists r, data.
  split; [destruct system_prompt as [s|]; [destruct (s =? "")|]; reflexivity|].
  split; [reflexivity|]. split; [now apply Z.eqb_eq|]. split; [exact Hl|].
  exact (first_content_read data v E).
Qed.

End CompletionClient.

(** ** config.py: [parse_cors_origins] *)

Lemma split_not_nil (s : string) (sep : ascii) : Config.split s sep <> [].
Proof.
  destruct s as [|c s]; simpl; [discriminate|].
  destruct (Ascii.eqb c sep); [discriminate|].
  destruct (Config.split s sep); discriminate.
Qed.

(** No piece of a split holds the separator. *)
Lemma split_pieces_free (s : string) (sep : ascii) :
  Forall (fun x => contains_char sep x = false) (Config.split s sep).
Proof.
  induction s as [|c s IH]; simpl.
  - constructor; [reflexivity | constructor].
  - destruct (Ascii.eqb c sep) eqn:Hc.
    + constructor; [reflexivity | exact IH].
    + destruct (Config.split s sep) as [|x xs].
      * constructor; [simpl; now rewrite Hc | constructor].
      * inversion IH; subst. constructor; [simpl; now rewrite Hc | assumption].
Qed.

Lemma split_before_separator (x rest : string) (sep : ascii) :
  contains_char sep x = false ->
  Config.split (x ++ String sep rest) sep = x :: Config.split rest sep.
Proof.
  induction x as [|c x IH]; simpl; intros H.
  - now rewrite Ascii.eqb_refl.
  - apply orb_false_iff in H. destruct H as [Hc Hx]. now rewrite Hc, (IH Hx).
Qed.

Lemma split_without_separator (x : string) (sep : ascii) :
  contains_char sep x = false -> Config.split x sep = [x].
Proof.
  induction x as [|c x IH]; simpl; intros H; [reflexivity|].
  apply orb_false_iff in H. destruct H as [Hc Hx]. now rewrite Hc, (IH Hx).
Qed.

(** Splitting what [join] put together gives the pieces back. *)
Lemma split_join (sep : ascii) (items : list string) :
  items <> [] ->
  Forall (fun x => contains_char sep x = false) items ->
  Config.split (join (String sep EmptyString) items) sep = items.
Proof.
  induction items as [|x items IH]; intros Hne Hf; [contradiction|].
  inversion Hf as [|? ? Hx Hrest]; subst.
  destruct items as [|y items].
  - now apply split_without_separator.
  - change (join (String sep EmptyString) (x :: y :: items))
      with (x ++ String sep (join (String sep EmptyString) (y :: items))).
    rewrite (split_before_separator _ _ _ Hx). f_equal.
    apply IH; [discriminate | exact Hrest].
Qed.

(** What [parse_cors_origins] keeps of a text: stripped, non-empty pieces
    without comma. *)
Lemma origins_kept (s o : string) :
  In o (Config.parse_cors_origins (inl s)) ->
  o <> EmptyString /\ strip o = o /\ contains_char ","%char o = false.
Proof.
  unfold Config.parse_cors_origins. intros H.
  apply in_map_iff in H. destruct H as (x & <- & Hx).
  apply filter_In in Hx. destruct Hx as [Hin Hne].
  split; [|split].
  - apply negb_true_iff, String.eqb_neq in Hne. exact Hne.
  - apply strip_idempotent.
  - apply contains_char_strip.
    pose proof (split_pieces_free s ","%char) as Hf.
    rewrite Forall_forall in Hf. exact (Hf x Hin).
Qed.

(** X16. Every origin read from a text setting is one of the pieces
    between its commas, stripped; it is non-empty, has no whitespace around
    it ([strip] leaves it as it is) and holds no comma. *)
Theorem cors_origins_are_trimmed (s o : string) :
  In o (Config.parse_cors_origins (inl s)) ->
  (exists piece, In piece (Config.split s ","%char) /\ o = strip piece)
  /\ o <> EmptyString /\ strip o = o /\ contains_char ","%char o = false.
Proof.
  intros H. split; [|exact (origins_kept s o H)].
  unfold Config.parse_cors_origins in H.
  apply in_map_iff in H. destruct H as (x & <- & Hx).
  apply filter_In in Hx. destruct Hx as [Hin _]. now exists x.
Qed.

Lemma filter_all {A : Type} (f : A -> bool) (l : list A) :
  Forall (fun x => f x = true) l -> filter f l = l.
Proof.
  induction 1 as [|x l Hx Hl IH]; simpl; [reflexivity|]. now rewrite Hx, IH.
Qed.

Lemma map_fixed {A : Type} (f : A -> A) (l : list A) :
  Forall (fun x => f x = x) l -> map f l = l.
Proof.
  induction 1 as [|x l Hx Hl IH]; simpl; [reflexivity|]. now rewrite Hx, IH.
Qed.

(** X17. Joining the origins read from a text with commas and reading the
    result again gives the same origins: the reading is a normal form. *)
Theorem cors_origins_round_trip (s : string) :
  Config.parse_cors_origins (inl (join "," (Config.parse_cors_origins (inl s))))
  = Config.parse_cors_origins (inl s).
Proof.
  pose proof (origins_kept s) as Hk.
  destruct (Config.parse_cors_origins (inl s)) as [|o os] eqn:E; [reflexivity|].
  rewrite <- E in *.
  assert (Hne : Config.parse_cors_origins (inl s) <> []) by (rewrite E; discriminate).
  clear E. set (origins := Config.parse_cors_origins (inl s)) in *.
  unfold Config.parse_cors_origins at 1.
  change "," with (String ","%char EmptyString).
  rewrite split_join.
  - rewrite filter_all.
    + apply map_fixed. apply Forall_forall. intros x Hx. now apply Hk.
    + apply Forall_forall. intros x Hx. destruct (Hk x Hx) as (Hx1 & Hx2 & _).
      rewrite Hx2. apply negb_true_iff, String.eqb_neq. exact Hx1.
  - exact Hne.
  - apply Forall_forall. intros x Hx. now apply Hk.
Qed.

(** ** main.py: the [/api/query] route *)

(** X18. The route refuses a query made of whitespace only (the empty one
    too) with status 400 before any port is called; for any other query it
    raises no [HTTPException], and the ports see what [answer] does with
    the query as it was sent, not stripped. *)
Theorem blank_queries_never_reach_the_agent
  (loads : string -> option pyval) (ports : Ports) (R : Type)
  (QueryResponse : string -> bool -> list SearchResult.t -> pyval -> option R)
  (q : string) (use : bool) (h : history) :
  if Words.blank q
  then Server.query loads ports R QueryResponse q use h
       = (Server.HTTPException 400 "Query cannot be empty", h)
  else snd (Server.query loads ports R QueryResponse q use h)
       = snd (answer loads ports q use h)
       /\ forall status detail,
            fst (Server.query loads ports R QueryResponse q use h)
            <> Server.HTTPException status detail.
Proof.
  unfold Server.query.
  destruct (Words.blank q) eqn:Hb.
  - apply strip_empty_iff in Hb. rewrite Hb. reflexivity.
  - assert (Hs : (strip q =? "") = false).
    { apply String.eqb_neq. intros H. apply strip_empty_iff in H. congruence. }
    rewrite Hs.
    destruct (answer loads ports q use h) as [[result|e] h']; simpl.
    + split; [reflexivity|].
      intros status detail. destruct (QueryResponse _ _ _ _); discriminate.
    + split; [reflexivity | discriminate].
Qed.

(** ** The properties of the rest of the code at concrete inputs *)

Lemma unfence_gives_the_fenced_body_witness :
  unfence Samples.fenced_reply = Ok (Fixtures.decision_yes ++ nl).
Proof.
  exact (unfence_gives_the_fenced_body " " "json" (Fixtures.decision_yes ++ nl) nl
           eq_refl eq_refl eq_refl).
Defined.

Lemma answer_lets_no_port_error_out_witness :
  (forall m c, AttributeError <> LLMError m c)
  /\ (forall m c, AttributeError <> ScraperError m c).
Proof.
  exact (answer_lets_no_port_error_out Json.loads
           (Fixtures.always (Returned "[]") (Returned []))
           Fixtures.question true [] [Prompt (DECISION_PROMPT Fixtures.question) 0.1]
           AttributeError eq_refl).
Defined.



Lemma returned_answer_is_the_last_reply_witness :
  let ports := Fixtures.searching (Returned "Rocq 9.1 is out.")
                 (Returned [Fixtures.one_result]) in
  exists h0 p,
    Fixtures.calls_to_synthesis = (h0 ++ [Prompt p 0.7])%list
    /\ AnswerResult.question Fixtures.answered = Fixtures.question
    /\ AnswerResult.answer Fixtures.answered = Spec.answer_of (llm_prompt ports h0 p 0.7).
Proof.
  exact (returned_answer_is_the_last_reply Json.loads
           (Fixtures.searching (Returned "Rocq 9.1 is out.") (Returned [Fixtures.one_result]))
           Fixtures.question true [] Fixtures.calls_to_synthesis Fixtures.answered eq_refl).
Defined.

Lemma keywords_go_to_the_search_verbatim_witness :
  exists rest,
    snd (answer Json.loads
           (Fixtures.searching (Returned "Rocq 9.1 is out.") (Returned [Fixtures.one_result]))
           Fixtures.question true [])
    = ([Prompt (DECISION_PROMPT Fixtures.question) 0.1]
       ++ [Prompt (KEYWORD_PROMPT Fixtures.question) 0.1;
           Search (PStr "rocq release") 5] ++ rest)%list
    /\ existsb Spec.is_search rest = false.
Proof.
  exact (keywords_go_to_the_search_verbatim Json.loads
           (Fixtures.searching (Returned "Rocq 9.1 is out.") (Returned [Fixtures.one_result]))
           Fixtures.question [] [Prompt (DECISION_PROMPT Fixtures.question) 0.1]
           (PBool true) (PStr "recent news") (PStr "rocq release")
           Fixtures.keywords_reply Fixtures.keywords_reply
           [("keywords", PStr "rocq release")]
           eq_refl eq_refl eq_refl eq_refl eq_refl eq_refl).
Defined.

Lemma parser_lets_no_decode_error_out_witness :
  AttributeError <> JSONDecodeError /\ forall m c, AttributeError <> ScraperError m c.
Proof.
  exact (parser_lets_no_decode_error_out Json.loads (PList []) AttributeError eq_refl).
Defined.

Lemma parser_stops_at_an_item_that_is_no_object_witness :
  Scraper._parse_search_results Json.loads (PDict Samples.payload_with_text_item)
  = Raise AttributeError.
Proof.
  refine (parser_stops_at_an_item_that_is_no_object Json.loads
            Samples.payload_with_text_item Samples.payload_with_text_item
            [PDict [("title", PStr "A"); ("link", PStr "http://y")]; PStr "oops"]
            eq_refl eq_refl _).
  apply Exists_cons_tl, Exists_cons_hd. intros d. discriminate.
Defined.

Lemma parser_reads_back_to_dict_witness :
  Scraper._parse_search_results Json.loads
    (PDict [("organic", PList [SearchResult.to_dict Fixtures.one_result])])
  = Ok [Fixtures.one_result].
Proof.
  refine (parser_reads_back_to_dict Json.loads [Fixtures.one_result] _).
  constructor; [|constructor]. split; [reflexivity | left; reflexivity].
Defined.

Lemma search_scraper_error_has_a_cause_witness :
  exists q payload,
    PStr "rocq release" = PStr q
    /\ ScraperClient.url payload
       = "https://www.google.com/search?q=" ++ Urllib.quote_plus q ++ "&num="
           ++ str_of_int 5
    /\ match Samples.serp 500 "upstream down" "https://api.brightdata.com/request"
               (ScraperClient._get_headers "token") payload with
       | Http.TimedOut => "API request failed: upstream down" = "Request timed out"
                          /\ Some 500 = None
       | Http.RequestFailed e => "API request failed: upstream down" = "Request failed: " ++ e
                                 /\ Some 500 = None
       | Http.Responded r =>
           Http.status_code r <> 200
           /\ Some 500 = Some (Http.status_code r)
           /\ "API request failed: upstream down"
              = "API request failed: " ++ py_str (ScraperClient.error_detail Json.loads r)
       end.
Proof.
  exact (search_scraper_error_has_a_cause Json.loads Urllib.quote_plus
           (Samples.serp 500 "upstream down") "token" "https://api.brightdata.com/request"
           (PStr "rocq release") 5 "API request failed: upstream down" (Some 500) eq_refl).
Defined.

Lemma search_returns_parsed_valid_records_witness :
  exists q payload r data,
    PStr "rocq release" = PStr q
    /\ Samples.serp 200 Samples.serp_text "https://api.brightdata.com/request"
         (ScraperClient._get_headers "token") payload = Http.Responded r
    /\ Http.status_code r = 200
    /\ Json.loads (Http.text r) = Some data
    /\ Scraper._parse_search_results Json.loads data
       = Ok [SearchResult.make (PStr "A") (PStr "http://y") (PStr "d")]
    /\ Forall (fun x => truthy (SearchResult.title x) = true
                        /\ truthy (SearchResult.url x) = true)
              [SearchResult.make (PStr "A") (PStr "http://y") (PStr "d")].
Proof.
  exact (search_returns_parsed_valid_records Json.loads Urllib.quote_plus
           (Samples.serp 200 Samples.serp_text) "token" "https://api.brightdata.com/request"
           (PStr "rocq release") 5
           [SearchResult.make (PStr "A") (PStr "http://y") (PStr "d")] eq_refl).
Defined.

Lemma prompt_llm_error_has_a_cause_witness :
  exists payload,
    Llm.messages payload = [{| Llm.role := "user"; Llm.content := "Hi" |}]
    /\ Llm.temperature payload = 0.7%Q
    /\ match Samples.completion 503 Samples.chat_error_text
               ("https://sfo1.aihub.zeabur.ai" ++ "/v1/chat/completions")
               (Llm._get_headers "token") payload with
       | Http.TimedOut => "API request failed: model overloaded" = "Request timed out"
                          /\ Some 503 = None
       | Http.RequestFailed e =>
           "API request failed: model overloaded" = "Request failed: " ++ e
           /\ Some 503 = None
       | Http.Responded r =>
           Http.status_code r <> 200
           /\ Some 503 = Some (Http.status_code r)
           /\ "API request failed: model overloaded"
              = "API request failed: " ++ py_str (Llm.error_detail Json.loads r)
       end.
Proof.
  exact (prompt_llm_error_has_a_cause Json.loads
           (Samples.completion 503 Samples.chat_error_text)
           "token" "gpt-4o-mini" "https://sfo1.aihub.zeabur.ai"
           "Hi" None None 0.7 None "API request failed: model overloaded" (Some 503)
           eq_refl).
Defined.

Lemma prompt_returns_the_first_content_witness :
  exists payload r data,
    Llm.messages payload = [{| Llm.role := "user"; Llm.content := "Hi" |}]
    /\ Samples.completion 200 Samples.chat_text
         ("https://sfo1.aihub.zeabur.ai" ++ "/v1/chat/completions")
         (Llm._get_headers "token") payload = Http.Responded r
    /\ Http.status_code r = 200
    /\ Json.loads (Http.text r) = Some data
    /\ Words.first_content data (PStr "4").
Proof.
  exact (prompt_returns_the_first_content Json.loads
           (Samples.completion 200 Samples.chat_text)
           "token" "gpt-4o-mini" "https://sfo1.aihub.zeabur.ai"
           "Hi" None None 0.7 None (PStr "4") eq_refl).
Defined.

Lemma cors_origins_are_trimmed_witness :
  (exists piece,
      In piece (Config.split Samples.origins_text ","%char)
      /\ "http://a.com" = strip piece)
  /\ "http://a.com" <> EmptyString
  /\ strip "http://a.com" = "http://a.com"
  /\ contains_char ","%char "http://a.com" = false.
Proof.
  apply (cors_origins_are_trimmed Samples.origins_text "http://a.com").
  left. reflexivity.
Defined.

(** The setting of the sample reads as its two origins. *)
Example origins_of_the_sample :
  Config.parse_cors_origins (inl Samples.origins_text) = ["http://a.com"; "http://b.com"].
Proof. reflexivity. Qed.
